(** * pdf2docx.page.Pages: header/footer consensus detection

    A shallow embedding of [src/pdf2docx/page/Pages.py]: the document
    coordinator [Pages.parse] and the cross-page detector
    [Pages._parse_header_footer], with the facts the specification states
    about them.

    Conventions of the embedding.
    - Python [str] values are [string]s; a character is read as the code
      point of the same number, so the model covers texts over U+0000..U+00FF.
    - Page coordinates are only stored, compared and maximised, never
      computed with; they are integers of [Z] here.
    - A [Counter] is a finite map from keys to counts whose lookup of a
      missing key is 0.
    - Collaborators that live outside [Pages.py] (extraction, clean-up, fonts,
      margins, sections, the reading-order sort, the truth value of the
      items of a collection) are parameters. *)

From Stdlib Require Import ZArith Lia List Bool Ascii String.
From stdpp Require Import gmap strings list fin_maps.

Local Open Scope Z_scope.

(* ===================================================================== *)
(** * Python strings: [str.strip] and [re.sub(r'\d+', '1', _)]          *)
(* ===================================================================== *)

Module PyStr.

(** [c.isspace()] for the code points below 256: TAB..CR, FS..US, SPACE,
    NEL and NBSP. These are the characters [str.strip()] removes. *)
Definition is_space (c : ascii) : bool :=
  let n := N_of_ascii c in
  ((9 <=? n) && (n <=? 13) || (28 <=? n) && (n <=? 32)
   || (n =? 133) || (n =? 160))%N.

(** The class [\d] of the [re] module for the code points below 256:
    the decimal digits 0..9. *)
Definition is_digit (c : ascii) : bool :=
  let n := N_of_ascii c in ((48 <=? n) && (n <=? 57))%N.

Fixpoint lstrip (s : string) : string :=
  match s with
  | EmptyString => EmptyString
  | String c r => if is_space c then lstrip r else s
  end.

Fixpoint rstrip (s : string) : string :=
  match s with
  | EmptyString => EmptyString
  | String c r =>
      match rstrip r with
      | EmptyString => if is_space c then EmptyString else String c EmptyString
      | r' => String c r'
      end
  end.

(** [s.strip()] *)
Definition strip (s : string) : string := rstrip (lstrip s).

(** The scanner behind [re.sub(r'\d+', '1', s)]: [\d+] is greedy, so each
    match is a maximal run of digits; the run is replaced by "1" when its
    first digit is met and the rest of the run is dropped. [in_run] tells
    that the previous character was a digit. *)
Fixpoint sub_digits_from (in_run : bool) (s : string) : string :=
  match s with
  | EmptyString => EmptyString
  | String c r =>
      if is_digit c
      then if in_run then sub_digits_from true r
           else String "1" (sub_digits_from true r)
      else String c (sub_digits_from false r)
  end.

Definition sub_digits (s : string) : string := sub_digits_from false s.

(** [re.sub(r'\d+', '1', text.strip())], the key under which a block is
    tallied. *)
Definition signature (text : string) : string := sub_digits (strip text).

(** Truth value of a [str]: non-empty. *)
Definition truthy (s : string) : bool :=
  match s with EmptyString => false | _ => true end.

End PyStr.

(* ===================================================================== *)
(** * The product [num_pages * 0.4] in binary64                          *)
(* ===================================================================== *)

Module Float64.

(** A finite non-negative double is [mant * 2 ^ expo] with
    [mant <= 2 ^ 53]. Infinities, NaN and subnormals do not arise from a
    page count multiplied by 0.4 and are left out. *)
Record t := mk { mant : Z; expo : Z }.

(** Round [m * 2 ^ e] ([0 <= m]) to 53 significant bits, to nearest,
    ties to even: the rounding of every IEEE 754 operation below. *)
Definition round (m e : Z) : t :=
  if m <? 2 ^ 53 then mk m e
  else
    let k := Z.log2 m - 52 in
    let q := m / 2 ^ k in
    let r := m mod 2 ^ k in
    let half := 2 ^ (k - 1) in
    let up := (half <? r) || ((r =? half) && Z.odd q) in
    mk (if up then q + 1 else q) (e + k).

(** [float(n)] for a non-negative [int]. *)
Definition of_int (n : Z) : t := round n 0.

Definition mul (a b : t) : t := round (mant a * mant b) (expo a + expo b).

(** [int(x)]: truncation, which for non-negative [x] is the floor. *)
Definition to_int (a : t) : Z :=
  if 0 <=? expo a then mant a * 2 ^ expo a else mant a / 2 ^ (- expo a).

(** The literal [0.4]: [(0.4).hex() = '0x1.999999999999ap-2'], that is
    [0x1999999999999A * 2 ^ -54]. *)
Definition lit_0_4 : t := mk 7205759403792794 (-54).

End Float64.

(** Lines 98-101 of [_parse_header_footer]:
<<
    threshold = int(num_pages * 0.4) if num_pages > 10 else 4
    if 1 < num_pages <= 3:
        threshold = num_pages
>> *)
Definition threshold (num_pages : Z) : Z :=
  let threshold :=
    if 10 <? num_pages
    then Float64.to_int (Float64.mul (Float64.of_int num_pages) Float64.lit_0_4)
    else 4 in
  if (1 <? num_pages) && (num_pages <=? 3) then num_pages else threshold.


(* ===================================================================== *)
(** * Python built-ins used by the detector                              *)
(* ===================================================================== *)

(** [l[k]] with Python's negative indices; [None] stands for IndexError. *)
Definition py_index {A} (l : list A) (k : Z) : option A :=
  let n := Z.of_nat (length l) in
  if (0 <=? k) && (k <? n) then l !! Z.to_nat k
  else if (- n <=? k) && (k <? 0) then l !! Z.to_nat (n + k)
  else None.

(** [max(l, default=d)] and [min(l, default=d)]. *)
Definition py_max (l : list Z) (default : Z) : Z :=
  match l with
  | [] => default
  | x :: r => fold_left Z.max r x
  end.

Definition py_min (l : list Z) (default : Z) : Z :=
  match l with
  | [] => default
  | x :: r => fold_left Z.min r x
  end.

(** [range(n)] *)
Definition range (n : nat) : list nat := seq 0 n.

(** [extend] of the collections of [pdf2docx.common.Collection], which live
    outside [Pages.py]: the items are appended one by one, and an item that
    is false is passed over. [truth] is the truth value of an item. *)
Definition extend {A} (truth : A -> bool) (l new : list A) : list A :=
  l ++ List.filter truth new.

(** [collections.Counter] keyed by strings. *)
Module Counter.

Abbreviation t := (gmap string Z).

(** [c[key]]: a missing key counts 0 and is not inserted. *)
Definition get (c : t) (key : string) : Z := default 0 (c !! key).

(** [c[key] += 1] *)
Definition incr (key : string) (c : t) : t := <[key := get c key + 1]> c.

End Counter.

(* ===================================================================== *)
(** * Data model                                                         *)
(* ===================================================================== *)

(** A bounding box [(x0, y0, x1, y1)]; [bbox[i]] is [getitem bbox i]. *)
Record Rect := { x0 : Z; y0 : Z; x1 : Z; y1 : Z }.

Definition getitem (r : Rect) (i : nat) : Z :=
  match i with
  | O => x0 r
  | 1%nat => y0 r
  | 2%nat => x1 r
  | _ => y1 r
  end.

(** A block of a raw page: [block.bbox] and [block.text], which is [None]
    for a block without text. *)
Module Block.
Record t := mk { bbox : Rect; text : option string }.
End Block.

(** A raw page as [Pages.py] uses it. [header], [footer] and [margin] are
    attributes that [Pages.py] assigns; they are [None] until then.
    [Margin] is the type of what [calculate_margin] returns. *)
Module RawPage.
Record t {Margin : Type} := mk {
  raw_text : string;
  width : Z;
  height : Z;
  bbox : Rect;
  blocks : list Block.t;
  header : option Z;
  footer : option Z;
  margin : option Margin;
}.
Arguments t : clear implicits.
Arguments mk {Margin}.

(** [page.header = h; page.footer = f] *)
Definition set_header_footer {M} (p : t M) (h f : Z) : t M :=
  mk (raw_text p) (width p) (height p) (bbox p) (blocks p)
     (Some h) (Some f) (margin p).

(** [page.blocks] put in another order, in place. *)
Definition set_blocks {M} (p : t M) (bs : list Block.t) : t M :=
  mk (raw_text p) (width p) (height p) (bbox p) bs
     (header p) (footer p) (margin p).

(** [raw_page.margin = m] *)
Definition set_margin {M} (p : t M) (m : M) : t M :=
  mk (raw_text p) (width p) (height p) (bbox p) (blocks p)
     (header p) (footer p) (Some m).
End RawPage.

(** A page of the collection [Pages]. *)
Module Page.
Record t {Margin Section_ Image : Type} := mk {
  id : nat;
  skip_parsing : bool;
  width : option Z;
  height : option Z;
  margin : option Margin;
  sections : list Section_;
  float_images : list Image;
}.
Arguments t : clear implicits.
Arguments mk {Margin Section_ Image}.

(** [page.width = w; page.height = h;
     page.float_images.reset().extend(images)] *)
Definition set_basic {M S I} (truth : I -> bool) (p : t M S I) (w h : Z)
    (images : list I) : t M S I :=
  mk (id p) (skip_parsing p) (Some w) (Some h) (margin p) (sections p)
     (extend truth [] images).

(** [page.margin = m; page.sections.extend(new)] *)
Definition set_layout {M S I} (truth : S -> bool) (p : t M S I) (m : M)
    (new : list S) : t M S I :=
  mk (id p) (skip_parsing p) (width p) (height p) (Some m)
     (extend truth (sections p) new) (float_images p).
End Page.

(* ===================================================================== *)
(** * [Pages._parse_header_footer]                                       *)
(* ===================================================================== *)

Section Detector.

Context {Margin : Type}.

(** [page.blocks.sort_in_reading_order()]. [Collection] is not part of
    [Pages.py], so the order is a parameter: the function from the blocks of
    a page to the blocks in reading order. The call sorts [page.blocks] in
    place and returns the collection itself, so after it [blocks] and
    [page.blocks] are the same sorted collection. *)
Variable sort_in_reading_order : list Block.t -> list Block.t.

(** What the call leaves of a page in either loop: the page is passed over
    when it has no block, and has its blocks in reading order otherwise.
<<
    if not elements: continue
    blocks = page.blocks.sort_in_reading_order()
>>
    [elements] is a fresh collection extended with [page.blocks], itself a
    collection of the same kind: it holds no false item, such items being
    passed over when a collection is filled, so [elements] is empty exactly
    when the page has no block. *)
Definition sorted_in_place (page : RawPage.t Margin) : RawPage.t Margin :=
  match RawPage.blocks page with
  | [] => page
  | bs => RawPage.set_blocks page (sort_in_reading_order bs)
  end.

(** The guard and the two assignments shared by the four [if] statements
    of the loops over [range(3)]:
<<
    if i < len(blocks) and blocks[k].text is not None:
        block = blocks[k]
        text = re.sub(r'\d+', '1', block.text.strip())
>>
    where [k] is [i] for the head of the page and [-(i+1)] for its tail.
    The result is [block] and [text]. *)
Definition candidate (blocks : list Block.t) (i : nat) (k : Z)
  : option (Block.t * string) :=
  if (i <? length blocks)%nat then
    match py_index blocks k with
    | Some block =>
        match Block.text block with
        | Some t => Some (block, PyStr.signature t)
        | None => None
        end
    | None => None
    end
  else None.

Definition head_index (i : nat) : Z := Z.of_nat i.
Definition tail_index (i : nat) : Z := - (Z.of_nat i + 1).

(** Body of the first [for i in range(3)]. *)
Definition tally_body (blocks : list Block.t)
    (st : Counter.t * Counter.t) (i : nat) : Counter.t * Counter.t :=
  let '(headers, footers) := st in
  let headers :=
    match candidate blocks i (head_index i) with
    | Some (_, text) => Counter.incr text headers
    | None => headers
    end in
  let footers :=
    match candidate blocks i (tail_index i) with
    | Some (_, text) => Counter.incr text footers
    | None => footers
    end in
  (headers, footers).

(** Body of the first [for page in raw_pages], as to the two counters; the
    page itself is left as [sorted_in_place] tells. *)
Definition tally_page (st : Counter.t * Counter.t) (page : RawPage.t Margin)
  : Counter.t * Counter.t :=
  match RawPage.blocks page with
  | [] => st                                    (* if not elements: continue *)
  | _ =>
      let blocks := sort_in_reading_order (RawPage.blocks page) in
      fold_left (tally_body blocks) (range 3) st
  end.

(** The first pass: both counters after all pages. *)
Definition tally (raw_pages : list (RawPage.t Margin)) : Counter.t * Counter.t :=
  fold_left tally_page raw_pages (∅, ∅).

(** Body of the second [for i in range(3)]. *)
Definition classify_body (headers footers : Counter.t) (threshold : Z)
    (blocks : list Block.t) (st : list Block.t * list Block.t) (i : nat)
  : list Block.t * list Block.t :=
  let '(header_blocks, footer_blocks) := st in
  let header_blocks :=
    match candidate blocks i (head_index i) with
    | Some (block, text) =>
        if threshold <? Counter.get headers text
        then header_blocks ++ [block] else header_blocks
    | None => header_blocks
    end in
  let footer_blocks :=
    match candidate blocks i (tail_index i) with
    | Some (block, text) =>
        if threshold <? Counter.get footers text
        then footer_blocks ++ [block] else footer_blocks
    | None => footer_blocks
    end in
  (header_blocks, footer_blocks).

(** [header_blocks] and [footer_blocks] of a page with blocks, as the
    second loop finds it. *)
Definition classified (headers footers : Counter.t) (threshold : Z)
    (page : RawPage.t Margin) : list Block.t * list Block.t :=
  let blocks := sort_in_reading_order (RawPage.blocks page) in
  fold_left (classify_body headers footers threshold blocks) (range 3) ([], []).

(** Body of the second [for page in raw_pages]: the page with its blocks
    sorted once more and its two boundaries assigned. *)
Definition classify_page (headers footers : Counter.t) (threshold : Z)
    (page : RawPage.t Margin) : RawPage.t Margin :=
  match RawPage.blocks page with
  | [] => page                                  (* if not elements: continue *)
  | _ =>
      let '(header_blocks, footer_blocks) :=
        classified headers footers threshold page in
      RawPage.set_header_footer (sorted_in_place page)
        (py_max (map (fun b => getitem (Block.bbox b) 3) header_blocks) 0)
        (py_min (map (fun b => getitem (Block.bbox b) 1) footer_blocks)
                (getitem (RawPage.bbox page) 3))
  end.

(** The whole function: the counters of the first loop, the pages as the
    first loop leaves them, and the pages as the second loop leaves
    those. *)
Definition _parse_header_footer (raw_pages : list (RawPage.t Margin))
  : list (RawPage.t Margin) :=
  let '(headers, footers) := tally raw_pages in
  let raw_pages1 := map sorted_in_place raw_pages in
  let num_pages := Z.of_nat (length raw_pages) in
  let threshold := threshold num_pages in
  map (classify_page headers footers threshold) raw_pages1.

Definition _parse_document (raw_pages : list (RawPage.t Margin))
  : list (RawPage.t Margin) :=
  _parse_header_footer raw_pages.

End Detector.

(* ===================================================================== *)
(** * [Pages.parse]                                                      *)
(* ===================================================================== *)

(** What [logging] receives. *)
Inductive LogRecord := WARNING (msg : string).

(** The collaborators of [parse], none of which is defined in [Pages.py]:
    each is the function its call computes. A collaborator that raises
    aborts the run; such runs are outside this model. *)
Record Collaborators {Document Settings Fonts Margin Section_ Image : Type} := {
  (** [Fonts.extract(fitz_doc)] *)
  Fonts_extract : Document -> Fonts;
  (** [RawPageFactory.create(page_engine=fitz_doc[id], backend='PyMuPDF')] *)
  RawPageFactory_create : Document -> nat -> RawPage.t Margin;
  (** [raw_page.restore] applied to the settings *)
  restore : Settings -> RawPage.t Margin -> RawPage.t Margin;
  (** [raw_page.clean_up] applied to the settings *)
  clean_up : Settings -> RawPage.t Margin -> RawPage.t Margin;
  (** [raw_page.process_font(fonts)] *)
  process_font : Fonts -> RawPage.t Margin -> RawPage.t Margin;
  (** [blocks.floating_image_blocks] *)
  floating_image_blocks : list Block.t -> list Image;
  (** [bool(image)] and [bool(section)], which [extend] consults *)
  image_truth : Image -> bool;
  section_truth : Section_ -> bool;
  (** [blocks.sort_in_reading_order()] *)
  sort_in_reading_order : list Block.t -> list Block.t;
  (** [raw_page.calculate_margin] applied to the settings *)
  calculate_margin : Settings -> RawPage.t Margin -> Margin;
  (** [raw_page.parse_section] applied to the settings *)
  parse_section : Settings -> RawPage.t Margin -> list Section_;
}.
Arguments Collaborators : clear implicits.

Section Coordinator.

Context {Document Settings Fonts Margin Section_ Image : Type}.
Variable C : Collaborators Document Settings Fonts Margin Section_ Image.

Abbreviation page := (Page.t Margin Section_ Image).
Abbreviation raw_page := (RawPage.t Margin).

Definition no_words_warning : LogRecord :=
  WARNING "Words count: 0. It might be a scanned pdf, which is not supported yet.".

(** The state of the first loop. [self] holds the page objects of the
    collection; the list [pages] of the source holds references to some of
    them, kept here as their positions in [self]. *)
Record Extraction := {
  self : list page;
  pages : list nat;
  raw_pages : list raw_page;
  words_found : bool;
}.

(** Body of [for page in self] (lines 34-58), at position [i]. *)
Definition extract_body (fitz_doc : Document) (settings : Settings)
    (fonts : Fonts) (st : Extraction) (i : nat) : Extraction :=
  match self st !! i with
  | None => st
  | Some page =>
      if Page.skip_parsing page then st
      else
        let raw_page := RawPageFactory_create C fitz_doc (Page.id page) in
        let raw_page := restore C settings raw_page in
        let words_found :=
          if negb (words_found st)
             && PyStr.truthy (PyStr.strip (RawPage.raw_text raw_page))
          then true else words_found st in
        let raw_page := clean_up C settings raw_page in
        let raw_page := process_font C fonts raw_page in
        let page :=
          Page.set_basic (image_truth C) page
            (RawPage.width raw_page) (RawPage.height raw_page)
            (floating_image_blocks C (RawPage.blocks raw_page)) in
        {| self := <[i := page]> (self st);
           pages := pages st ++ [i];
           raw_pages := raw_pages st ++ [raw_page];
           words_found := words_found |}
  end.

(** Body of [for page, raw_page in zip(pages, raw_pages)] (lines 78-85). *)
Definition section_body (settings : Settings) (self : list page)
    (it : nat * raw_page) : list page :=
  let '(i, raw_page) := it in
  match self !! i with
  | None => self
  | Some page =>
      let margin := calculate_margin C settings raw_page in
      let raw_page := RawPage.set_margin raw_page margin in
      let sections := parse_section C settings raw_page in
      <[i := Page.set_layout (section_truth C) page margin sections]> self
  end.

(** [Pages.parse]: the pages of the collection after the run and the
    records logged during it. *)
Definition parse (self0 : list page) (fitz_doc : Document)
    (settings : Settings) : list page * list LogRecord :=
  let fonts := Fonts_extract C fitz_doc in
  let st :=
    fold_left (extract_body fitz_doc settings fonts)
      (seq 0 (length self0))
      {| self := self0; pages := []; raw_pages := []; words_found := false |} in
  let log := if words_found st then [] else [no_words_warning] in
  let raw_pages := _parse_document (sort_in_reading_order C) (raw_pages st) in
  let self1 :=
    fold_left (section_body settings) (zip (pages st) raw_pages) (self st) in
  (self1, log).

End Coordinator.

(* ===================================================================== *)
(** * Notions of the specification                                       *)
(* ===================================================================== *)

(** The threshold rule in the words of the specification: [n] for 2 and 3
    pages, [floor (0.4 * n)] above 10 pages, 4 otherwise. *)
Definition threshold_rule (n : Z) : Z :=
  if (n =? 2) || (n =? 3) then n
  else if 10 <? n then 4 * n / 10
  else 4.

Fixpoint all_digits (s : string) : bool :=
  match s with
  | EmptyString => true
  | String c r => PyStr.is_digit c && all_digits r
  end.

Fixpoint all_spaces (s : string) : bool :=
  match s with
  | EmptyString => true
  | String c r => PyStr.is_space c && all_spaces r
  end.

(** The whitespace of Python among the code points below 256, character by
    character: TAB, LF, VT, FF, CR, FS, GS, RS, US, SPACE, NEL and NBSP; and
    the ten decimal digits. *)
Definition whitespace : list ascii :=
  ["009"; "010"; "011"; "012"; "013"; "028"; "029"; "030"; "031"; "032";
   "133"; "160"]%char.

Definition decimal_digits : list ascii :=
  ["0"; "1"; "2"; "3"; "4"; "5"; "6"; "7"; "8"; "9"]%char.

(** A text of whitespace only, the empty text included. *)
Definition blank (s : string) : bool :=
  forallb (fun c => existsb (Ascii.eqb c) whitespace) (list_ascii_of_string s).

Fixpoint last_char (s : string) : option ascii :=
  match s with
  | EmptyString => None
  | String c EmptyString => Some c
  | String _ r => last_char r
  end.

(** Two texts that differ only in their digit runs: the same characters
    outside the runs, and a run of digits in one where the other has a run
    of digits. *)
Inductive digit_variant : string -> string -> Prop :=
| dv_nil : digit_variant EmptyString EmptyString
| dv_char c s t :
    PyStr.is_digit c = false ->
    digit_variant s t -> digit_variant (String c s) (String c t)
| dv_run d e s t :
    d <> EmptyString -> e <> EmptyString -> all_digits d = true -> all_digits e = true ->
    digit_variant s t -> digit_variant (d +:+ s) (e +:+ t).

(** The candidate windows of a page whose blocks are [bs] in reading order:
    up to three blocks from the start, and up to three from the end, the
    last block first. *)
Definition head_window (bs : list Block.t) : list Block.t := take 3 bs.
Definition tail_window (bs : list Block.t) : list Block.t := take 3 (reverse bs).

(** The signature of a block, when it has text. *)
Definition signature_of (b : Block.t) : option string :=
  PyStr.signature <$> Block.text b.

(** A block with text, together with its signature. *)
Definition keyed (b : Block.t) : option (Block.t * string) :=
  match Block.text b with
  | Some t => Some (b, PyStr.signature t)
  | None => None
  end.

(** The signatures a window contributes to a tally. *)
Definition window_keys (w : list Block.t) : list string := omap signature_of w.

(** Counting a list of signatures into a counter, one by one. *)
Definition add_all (keys : list string) (c : Counter.t) : Counter.t :=
  fold_left (fun c k => Counter.incr k c) keys c.

(** How often [s] occurs in [keys]. *)
Definition occurrences (s : string) (keys : list string) : Z :=
  Z.of_nat (length (List.filter (String.eqb s) keys)).

(** A block is classified when it has text and the count of its signature
    strictly exceeds the threshold. *)
Definition exceeds (c : Counter.t) (threshold : Z) (b : Block.t) : bool :=
  match Block.text b with
  | Some x => threshold <? Counter.get c (PyStr.signature x)
  | None => false
  end.

(** [v] is the greatest (least) element of [l], or [d] when [l] is empty. *)
Definition is_max_of (l : list Z) (d v : Z) : Prop :=
  match l with
  | [] => v = d
  | _ => In v l /\ forall x, In x l -> x <= v
  end.

Definition is_min_of (l : list Z) (d v : Z) : Prop :=
  match l with
  | [] => v = d
  | _ => In v l /\ forall x, In x l -> v <= x
  end.

Definition bottom_y (b : Block.t) : Z := getitem (Block.bbox b) 3.
Definition top_y (b : Block.t) : Z := getitem (Block.bbox b) 1.

Section DetectorNotions.

Context {Margin : Type}.
Variable sort_in_reading_order : list Block.t -> list Block.t.

(** The signatures one page contributes to the header tally and to the
    footer tally: none when the page has no block. *)
Definition page_head_keys (p : RawPage.t Margin) : list string :=
  match RawPage.blocks p with
  | [] => []
  | bs => window_keys (head_window (sort_in_reading_order bs))
  end.

Definition page_tail_keys (p : RawPage.t Margin) : list string :=
  match RawPage.blocks p with
  | [] => []
  | bs => window_keys (tail_window (sort_in_reading_order bs))
  end.

End DetectorNotions.

(** [sum(c.values())] *)
Definition total (c : Counter.t) : Z := map_fold (fun _ v acc => v + acc) 0 c.

(** A page keeps the order the specification asks for when, whenever both
    its boundaries differ from their defaults (header > 0, footer < bottom
    edge), the header boundary is at most the footer boundary. *)
Definition boundaries_ordered {Margin} (p : RawPage.t Margin) : Prop :=
  forall h f,
    RawPage.header p = Some h -> RawPage.footer p = Some f ->
    0 < h -> f < getitem (RawPage.bbox p) 3 -> h <= f.

(** What the detector needs of a sort: sorting what is sorted changes
    nothing, and a collection with a block is not sorted into an empty
    one. *)
Definition reading_order_sort (sort : list Block.t -> list Block.t) : Prop :=
  (forall l, sort (sort l) = sort l) /\ (forall l, sort l = [] -> l = []).

(** A page that contributes no qualifying block: it has no block at all, or
    no block of its two windows has text. *)
Definition no_qualifying_blocks {Margin}
    (sort : list Block.t -> list Block.t) (p : RawPage.t Margin) : Prop :=
  RawPage.blocks p = [] \/
  forall b, In b (head_window (sort (RawPage.blocks p))) \/
            In b (tail_window (sort (RawPage.blocks p))) ->
            Block.text b = None.

(* ===================================================================== *)
(** * A reading-order sort and sample documents                          *)
(* ===================================================================== *)

Module Collection.

(** Modelled from the spec: [Collection.sort_in_reading_order] is defined
    outside [Pages.py]. The specification describes reading order as
    "top-to-bottom, then left-to-right ordering of blocks"; this is a stable
    insertion sort on the top edge, then the left edge. *)
Definition reads_before (a b : Block.t) : bool :=
  let ra := Block.bbox a in
  let rb := Block.bbox b in
  (y0 ra <? y0 rb) || ((y0 ra =? y0 rb) && (x0 ra <=? x0 rb)).

Fixpoint insert_block (a : Block.t) (l : list Block.t) : list Block.t :=
  match l with
  | [] => [a]
  | b :: r => if reads_before a b then a :: l else b :: insert_block a r
  end.

Definition sort_in_reading_order (l : list Block.t) : list Block.t :=
  foldr insert_block [] l.

(** Each block reads before the next one. *)
Fixpoint in_reading_order (l : list Block.t) : Prop :=
  match l with
  | a :: (b :: _) as r => reads_before a b = true /\ in_reading_order r
  | _ => True
  end.

End Collection.

Module Sample.

(** A block across the text column between [top] and [bottom]. *)
Definition block (top bottom : Z) (text : option string) : Block.t :=
  Block.mk {| x0 := 72; y0 := top; x1 := 523; y1 := bottom |} text.

(** A freshly extracted A4 page. *)
Definition raw_page (text : string) (blocks : list Block.t) : RawPage.t (Z * Z) :=
  RawPage.mk text 595 842 {| x0 := 0; y0 := 0; x1 := 595; y1 := 842 |}
    blocks None None None.

Definition blank : RawPage.t (Z * Z) := raw_page EmptyString [].

(** One line of text; five copies make a document in which the line is
    both among the first and among the last blocks of every page. *)
Definition one_line : RawPage.t (Z * Z) :=
  raw_page "Draft" [block 10 20 (Some "Draft")].

(** A page whose only block holds two spaces. *)
Definition spaces_only : RawPage.t (Z * Z) :=
  raw_page "  " [block 10 20 (Some "  ")].

(** Two chapter headings on one page. *)
Definition two_headings : RawPage.t (Z * Z) :=
  raw_page "Chapter 1 Chapter 2"
    [block 10 20 (Some "Chapter 1"); block 30 40 (Some "Chapter 2")].

(** A page of a report: a running title, four pictures, a page number. The
    blocks are listed bottom-up, so the sort has work to do. *)
Definition report_page (number : string) : RawPage.t (Z * Z) :=
  raw_page ("Annual report " +:+ number)
    [ block 800 815 (Some ("Page " +:+ number +:+ " of 5"));
      block 600 700 None; block 450 550 None;
      block 300 400 None; block 100 200 None;
      block 30 45 (Some " Annual report 2026 ") ].

Definition report : list (RawPage.t (Z * Z)) :=
  map report_page ["1"; "2"; "3"; "4"; "5"].

(** A block between [left] and [right], [top] and [bottom]. *)
Definition block_at (left right top bottom : Z) (text : option string) : Block.t :=
  Block.mk {| x0 := left; y0 := top; x1 := right; y1 := bottom |} text.

(** A page of another report, whose running title is in two parts side by
    side, above two pictures and a page number. *)
Definition two_part_page (number : string) : RawPage.t (Z * Z) :=
  raw_page ("Minutes " +:+ number)
    [ block 800 815 (Some ("Page " +:+ number));
      block 300 400 None;
      block_at 310 523 30 45 (Some "March 2026");
      block_at 72 300 30 45 (Some "Minutes of the board");
      block 100 200 None ].

Definition two_part_report : list (RawPage.t (Z * Z)) :=
  map two_part_page ["1"; "2"; "3"; "4"; "5"].

(** A scanned page: two pictures, and a text of a tab and two spaces. *)
Definition scanned : RawPage.t (Z * Z) :=
  raw_page (String "009" "  ") [block 100 200 None; block 300 400 None].

(** A page of pictures only. *)
Definition pictures : RawPage.t (Z * Z) :=
  raw_page EmptyString [block 100 200 None; block 300 400 None].

End Sample.

(* ===================================================================== *)
(** * Notions for the coordinator                                        *)
(* ===================================================================== *)

Section CoordinatorNotions.

Context {Document Settings Fonts Margin Section_ Image : Type}.
Variable C : Collaborators Document Settings Fonts Margin Section_ Image.
Variables (fitz_doc : Document) (settings : Settings).

Abbreviation page := (Page.t Margin Section_ Image).
Abbreviation raw_page := (RawPage.t Margin).

(** The raw page of a page right after extraction, where [parse] looks for
    words, and after clean-up and font processing, where it is collected. *)
Definition extracted (p : page) : raw_page :=
  restore C settings (RawPageFactory_create C fitz_doc (Page.id p)).

Definition prepared (p : page) : raw_page :=
  process_font C (Fonts_extract C fitz_doc) (clean_up C settings (extracted p)).

(** A page yields text when its extracted text is not empty after
    stripping. *)
Definition yields_text (p : page) : bool :=
  PyStr.truthy (PyStr.strip (RawPage.raw_text (extracted p))).

Definition analysed_page (p : page) : bool := negb (Page.skip_parsing p).

(** The pages that are analysed, in order: those not skipped. *)
Definition analysed (l : list page) : list page := List.filter analysed_page l.

(** What the first loop leaves of a page. *)
Definition after_extraction (p : page) : page :=
  if Page.skip_parsing p then p
  else Page.set_basic (image_truth C) p
         (RawPage.width (prepared p)) (RawPage.height (prepared p))
         (floating_image_blocks C (RawPage.blocks (prepared p))).

(** What the last loop makes of a page and its raw page. *)
Definition with_layout (p : page) (rp : raw_page) : page :=
  let margin := calculate_margin C settings rp in
  Page.set_layout (section_truth C) p margin
    (parse_section C settings (RawPage.set_margin rp margin)).

(** The positions, counted from [start], of the analysed pages of [l]. *)
Fixpoint positions_from (start : nat) (l : list page) : list nat :=
  match l with
  | [] => []
  | p :: r =>
      if Page.skip_parsing p then positions_from (S start) r
      else start :: positions_from (S start) r
  end.

(** The pages [l] once each analysed page has met its raw page, the raw
    pages being taken from [raws] in order. *)
Fixpoint laid_out (l : list page) (raws : list raw_page) : list page :=
  match l with
  | [] => []
  | p :: r =>
      if Page.skip_parsing p then p :: laid_out r raws
      else match raws with
           | [] => l
           | rp :: raws' => with_layout p rp :: laid_out r raws'
           end
  end.

(** The number of analysed pages before position [i]. *)
Definition rank (l : list page) (i : nat) : nat := length (analysed (take i l)).

(** The raw pages the detector hands back for the collection [l]. *)
Definition detected (l : list page) : list raw_page :=
  _parse_document (sort_in_reading_order C) (map prepared (analysed l)).

End CoordinatorNotions.

(* ===================================================================== *)
(** * A small back end for the examples                                  *)
(* ===================================================================== *)

Module Toy.

(** A document is the list of its raw pages; the other collaborators do as
    little as their place in [parse] allows. Margins are the pair of the two
    boundaries. There is one section for every block, its text, and the
    section of a block without text is the empty text, which is false. The
    floating images are the blocks without text, and every image with a box
    of positive height is true. *)
Definition collaborators :
  Collaborators (list (RawPage.t (Z * Z))) unit unit (Z * Z) string Block.t :=
  {| Fonts_extract := fun _ => tt;
     RawPageFactory_create := fun doc id => nth id doc Sample.blank;
     restore := fun _ rp => rp;
     clean_up := fun _ rp => rp;
     process_font := fun _ rp => rp;
     floating_image_blocks :=
       List.filter (fun b => match Block.text b with None => true | _ => false end);
     image_truth := fun b => y0 (Block.bbox b) <? y1 (Block.bbox b);
     section_truth := PyStr.truthy;
     sort_in_reading_order := Collection.sort_in_reading_order;
     calculate_margin := fun _ rp =>
       (default 0 (RawPage.header rp),
        default (getitem (RawPage.bbox rp) 3) (RawPage.footer rp));
     parse_section := fun _ rp =>
       map (fun b => default EmptyString (Block.text b)) (RawPage.blocks rp) |}.

Definition new_page (id : nat) (skip : bool) : Page.t (Z * Z) string Block.t :=
  Page.mk id skip None None None [] [].

(** The five pages of the report, and among them a page to be skipped. *)
Definition report_pages : list (Page.t (Z * Z) string Block.t) :=
  [new_page 0 false; new_page 1 false; new_page 2 false;
   new_page 5 true; new_page 3 false; new_page 4 false].

(** A scan: two pages of pictures, the first with whitespace for text. *)
Definition scan : list (RawPage.t (Z * Z)) := [Sample.scanned; Sample.pictures].
Definition scan_pages : list (Page.t (Z * Z) string Block.t) :=
  [new_page 0 false; new_page 1 false].

End Toy.

(* ===================================================================== *)
(** * Notions for further properties of the code                         *)
(* ===================================================================== *)

(** A text in which the digits are canonical: every digit is the digit 1
    and no digit follows a digit. [after_digit] tells that the character
    before the text is a digit. *)
Fixpoint digits_canonical_from (after_digit : bool) (s : string) : bool :=
  match s with
  | EmptyString => true
  | String c r =>
      if PyStr.is_digit c
      then negb after_digit && Ascii.eqb c "1" && digits_canonical_from true r
      else digits_canonical_from false r
  end.

(** A text that neither starts nor ends with whitespace. *)
Definition trimmed (s : string) : Prop :=
  match s with String c _ => PyStr.is_space c = false | _ => True end /\
  match last_char s with Some c => PyStr.is_space c = false | None => True end.

(** What the detector keeps of a page [p] in the page [q] it leaves: text,
    size, box and margin as they are, and the blocks of [p] in reading
    order. *)
Definition kept_by_detector {Margin}
    (sort : list Block.t -> list Block.t) (p q : RawPage.t Margin) : Prop :=
  RawPage.raw_text q = RawPage.raw_text p /\
  RawPage.width q = RawPage.width p /\
  RawPage.height q = RawPage.height p /\
  RawPage.bbox q = RawPage.bbox p /\
  RawPage.blocks q = RawPage.blocks (sorted_in_place sort p) /\
  RawPage.margin q = RawPage.margin p.

(** A page with the default boundaries, as the two loops leave it when no
    block is classified: its blocks in reading order, header 0 and footer
    at the bottom edge; a page without blocks is passed over. *)
Definition with_defaults {Margin}
    (sort : list Block.t -> list Block.t) (p : RawPage.t Margin) : RawPage.t Margin :=
  match RawPage.blocks p with
  | [] => p
  | _ => RawPage.set_header_footer (sorted_in_place sort p)
           0 (getitem (RawPage.bbox p) 3)
  end.

(** What [parse] reads of a page of the collection: its id and its skip
    flag. *)
Definition page_key {M S I} (p : Page.t M S I) : nat * bool :=
  (Page.id p, Page.skip_parsing p).
Section ThresholdFacts.

Lemma of_int_exact n : 0 <= n < 2 ^ 53 -> Float64.of_int n = Float64.mk n 0.
Proof.
  intros Hn. unfold Float64.of_int, Float64.round.
  destruct (Z.ltb_spec n (2 ^ 53)) as [_|Hge]; [reflexivity | lia].
Qed.

(** Where the rounding of a product lands: the mantissa is the quotient or
    its successor, and the successor is taken only from the upper half. *)
Lemma round_cases m e :
  2 ^ 53 <= m ->
  let k := Z.log2 m - 52 in
  exists q', Float64.round m e = Float64.mk q' (e + k) /\
    (q' = m / 2 ^ k \/ (q' = m / 2 ^ k + 1 /\ 2 ^ (k - 1) <= m mod 2 ^ k)).
Proof.
  intros Hm k. unfold Float64.round.
  destruct (Z.ltb_spec m (2 ^ 53)) as [Hlt|_]; [lia|].
  fold k.
  destruct ((2 ^ (k - 1) <? m mod 2 ^ k)
            || ((m mod 2 ^ k =? 2 ^ (k - 1)) && Z.odd (m / 2 ^ k))) eqn:Hup.
  - eexists; split; [reflexivity|]. right. split; [reflexivity|].
    apply orb_true_iff in Hup as [Hup|Hup].
    + apply Z.ltb_lt in Hup. lia.
    + apply andb_true_iff in Hup as [Hup _]. apply Z.eqb_eq in Hup. lia.
  - eexists; split; [reflexivity|]. now left.
Qed.

(** [int(n * 0.4)] is the floor of four tenths of [n] for every page count
    below [2 ^ 50]. *)
Lemma int_mul_0_4 n :
  11 <= n < 2 ^ 50 ->
  Float64.to_int (Float64.mul (Float64.of_int n) Float64.lit_0_4) = 4 * n / 10.
Proof.
  intros Hn.
  rewrite of_int_exact by lia.
  unfold Float64.mul, Float64.lit_0_4. cbn [Float64.mant Float64.expo].
  set (p := n * 7205759403792794).
  assert (Hp : 2 ^ 53 <= p < 2 ^ 103) by (subst p; lia).
  destruct (round_cases p (0 + -54) ltac:(lia)) as (q' & -> & Hq').
  cbv zeta in Hq'. set (k := Z.log2 p - 52) in *.
  assert (Hk : 1 <= k <= 50).
  { subst k. split.
    - assert (53 <= Z.log2 p); [|lia].
      rewrite <- (Z.log2_pow2 53) by lia. apply Z.log2_le_mono. lia.
    - assert (Z.log2 p < 103); [|lia].
      apply Z.log2_lt_pow2; lia. }
  unfold Float64.to_int. cbn [Float64.mant Float64.expo].
  destruct (Z.leb_spec 0 (0 + -54 + k)) as [Hneg|_]; [lia|].
  replace (- (0 + -54 + k)) with (54 - k) by lia.
  set (a := 2 ^ k) in *. set (h := 2 ^ (k - 1)) in *. set (b := 2 ^ (54 - k)).
  assert (Hab : a * b = 2 ^ 54).
  { subst a b. rewrite <- Z.pow_add_r by lia. f_equal. lia. }
  assert (Hah : a = 2 * h).
  { subst a h. rewrite <- Z.pow_succ_r by lia. f_equal. lia. }
  assert (Hh : 1 <= h <= 2 ^ 49).
  { subst h. split.
    - apply (Z.pow_le_mono_r 2 0 (k - 1)); lia.
    - apply Z.pow_le_mono_r; lia. }
  assert (Hb : 1 <= b).
  { subst b. apply (Z.pow_le_mono_r 2 0 (54 - k)); lia. }
  pose proof (Z.div_mod p a ltac:(lia)) as Hdm.
  pose proof (Z.mod_pos_bound p a ltac:(lia)) as Hr.
  set (q := p / a) in *. set (r := p mod a) in *.
  set (m := 4 * n / 10).
  assert (Hm : 10 * m <= 4 * n <= 10 * m + 9).
  { pose proof (Z.mul_div_le (4 * n) 10 ltac:(lia)) as Hle.
    pose proof (Z.mul_succ_div_gt (4 * n) 10 ltac:(lia)) as Hgt.
    fold m in Hle, Hgt. clearbody m. clear - Hle Hgt. lia. }
  assert (H5p : 5 * p = n * 2 ^ 55 + 2 * n) by (subst p; clear; lia).
  (* the quotient is at least [m * b] *)
  assert (Hlow : m * b <= q).
  { destruct (Z.le_gt_cases (m * b) q) as [|Hlt]; [assumption|exfalso].
    assert (a * q <= a * (m * b - 1)) by (apply Z.mul_le_mono_nonneg_l; lia).
    replace (a * (m * b - 1)) with (m * (a * b) - a) in * by ring.
    rewrite Hab in *. lia. }
  (* and the rounded quotient stays below [(m + 1) * b] *)
  assert (Hupp : q' < (m + 1) * b).
  { destruct (Z.lt_ge_cases q' ((m + 1) * b)) as [|Hge]; [assumption|exfalso].
    assert (Hq1 : (m + 1) * b - 1 <= q) by lia.
    assert (a * ((m + 1) * b - 1) <= a * q)
      by (apply Z.mul_le_mono_nonneg_l; lia).
    replace (a * ((m + 1) * b - 1)) with ((m + 1) * (a * b) - a) in * by ring.
    rewrite Hab in *.
    destruct Hq' as [->|[-> Hhalf]].
    - assert (a * ((m + 1) * b) <= a * q)
        by (apply Z.mul_le_mono_nonneg_l; lia).
      replace (a * ((m + 1) * b)) with ((m + 1) * (a * b)) in * by ring.
      rewrite Hab in *. lia.
    - lia. }
  assert (Hq'low : m * b <= q') by lia.
  clearbody m b. clear - Hq'low Hupp Hb.
  symmetry. apply (Z.div_unique q' b m (q' - b * m)); lia.
Qed.

Lemma threshold_is_rule n : 0 <= n < 2 ^ 50 -> threshold n = threshold_rule n.
Proof.
  intros Hn. unfold threshold, threshold_rule.
  destruct (Z.ltb_spec 10 n) as [Hbig|Hsmall].
  - rewrite int_mul_0_4 by lia.
    destruct (Z.ltb_spec 1 n), (Z.leb_spec n 3),
      (Z.eqb_spec n 2), (Z.eqb_spec n 3); cbn; lia.
  - destruct (Z.ltb_spec 1 n), (Z.leb_spec n 3),
      (Z.eqb_spec n 2), (Z.eqb_spec n 3); cbn; lia.
Qed.

End ThresholdFacts.
(* ===================================================================== *)
(** * Facts about [strip] and the signature                              *)
(* ===================================================================== *)

Section StringFacts.

Import PyStr.

#[local] Arguments is_space : simpl never.
#[local] Arguments is_digit : simpl never.

Lemma append_cons c s t : String c s +:+ t = String c (s +:+ t).
Proof. reflexivity. Qed.

Lemma append_nil s : EmptyString +:+ s = s.
Proof. reflexivity. Qed.

Lemma digit_not_space c : is_digit c = true -> is_space c = false.
Proof.
  destruct c as [[] [] [] [] [] [] [] []]; vm_compute; intros H;
    first [discriminate H | reflexivity].
Qed.

Lemma rstrip_cons_nonspace c s :
  is_space c = false -> rstrip (String c s) = String c (rstrip s).
Proof. intros Hc. cbn. rewrite Hc. now destruct (rstrip s). Qed.

Lemma lstrip_digits d s :
  d <> EmptyString -> all_digits d = true -> lstrip (d +:+ s) = d +:+ s.
Proof.
  destruct d as [|c d]; [congruence|]. cbn. intros _ H.
  apply andb_true_iff in H as [Hc _].
  change (String c d +:+ s) with (String c (d +:+ s)). cbn [lstrip].
  now rewrite (digit_not_space _ Hc).
Qed.

Lemma rstrip_digits d s :
  all_digits d = true -> rstrip (d +:+ s) = d +:+ rstrip s.
Proof.
  induction d as [|c d IH]; [reflexivity|]. intros H.
  cbn [all_digits] in H. apply andb_true_iff in H as [Hc Hd].
  change (String c d +:+ s) with (String c (d +:+ s)).
  rewrite rstrip_cons_nonspace by now apply digit_not_space.
  now rewrite IH.
Qed.

(** A run of digits is replaced by one "1", or by nothing when the run
    continues one that has already been replaced. *)
Lemma sub_digits_from_run b d s :
  d <> EmptyString -> all_digits d = true ->
  sub_digits_from b (d +:+ s) =
  (if b then EmptyString else "1") +:+ sub_digits_from true s.
Proof.
  revert b. induction d as [|c d IH]; [congruence|]. intros b _ H.
  cbn [all_digits] in H. apply andb_true_iff in H as [Hc Hd].
  change (String c d +:+ s) with (String c (d +:+ s)).
  cbn [sub_digits_from]. rewrite Hc.
  destruct d as [|c' d'].
  - now destruct b.
  - rewrite (IH true) by easy. now destruct b.
Qed.

Lemma digit_variant_sub_digits s t :
  digit_variant s t -> forall b, sub_digits_from b s = sub_digits_from b t.
Proof.
  induction 1 as [|c s t Hc _ IH|d e s t Hd He Hd' He' _ IH]; intros b.
  - reflexivity.
  - cbn. rewrite Hc. now rewrite IH.
  - rewrite !sub_digits_from_run by assumption. now rewrite IH.
Qed.

Lemma digit_variant_empty s t : digit_variant s t -> s = EmptyString <-> t = EmptyString.
Proof.
  destruct 1 as [|c s t|d e s t Hd He]; [easy|easy|].
  destruct d, e; easy.
Qed.

Lemma digit_variant_lstrip s t :
  digit_variant s t -> digit_variant (lstrip s) (lstrip t).
Proof.
  induction 1 as [|c s t Hc Hst IH|d e s t Hd He Hd' He' Hst IH].
  - constructor.
  - cbn. destruct (is_space c); [assumption | now constructor].
  - rewrite !lstrip_digits by assumption. now constructor.
Qed.

Lemma digit_variant_rstrip s t :
  digit_variant s t -> digit_variant (rstrip s) (rstrip t).
Proof.
  induction 1 as [|c s t Hc Hst IH|d e s t Hd He Hd' He' Hst IH].
  - constructor.
  - pose proof (digit_variant_empty _ _ IH) as Hemp. cbn.
    destruct (rstrip s) as [|a s'] eqn:Es, (rstrip t) as [|a' t'] eqn:Et.
    + destruct (is_space c); repeat constructor; assumption.
    + destruct Hemp as [Hemp _]. now specialize (Hemp eq_refl).
    + destruct Hemp as [_ Hemp]. now specialize (Hemp eq_refl).
    + now constructor.
  - rewrite !rstrip_digits by assumption. now constructor.
Qed.

Lemma digit_variant_strip s t :
  digit_variant s t -> digit_variant (strip s) (strip t).
Proof. intros H. now apply digit_variant_rstrip, digit_variant_lstrip. Qed.

(** What [strip] removes and what it leaves: the text is its stripped form
    between two runs of whitespace, and the stripped form neither starts
    nor ends with whitespace. *)
Lemma lstrip_spec s :
  exists l, all_spaces l = true /\ s = l +:+ lstrip s /\
    match lstrip s with String c _ => is_space c = false | _ => True end.
Proof.
  induction s as [|c s (l & Hl & Hs & Hhd)].
  - now exists EmptyString.
  - cbn [lstrip]. destruct (is_space c) eqn:Hc.
    + exists (String c l). cbn [all_spaces]. rewrite Hc, Hl, append_cons.
      repeat split; [|assumption]. now rewrite <- Hs.
    + exists EmptyString. rewrite append_nil, Hc. now repeat split.
Qed.

Lemma rstrip_spec s :
  exists r, all_spaces r = true /\ s = rstrip s +:+ r /\
    match last_char (rstrip s) with Some c => is_space c = false | None => True end.
Proof.
  induction s as [|c s (r & Hr & Hs & Hlast)].
  - now exists EmptyString.
  - cbn [rstrip]. destruct (rstrip s) as [|a s'] eqn:Es.
    + rewrite append_nil in Hs. subst r. destruct (is_space c) eqn:Hc.
      * exists (String c s). cbn [all_spaces last_char].
        rewrite Hc, Hr, append_nil. now repeat split.
      * exists s. rewrite append_cons, append_nil.
        repeat split; [assumption|]. cbn [last_char]. exact Hc.
    + exists r. rewrite append_cons, <- Hs. repeat split; [assumption|].
      cbn [last_char]. cbn [last_char] in Hlast. destruct s'; exact Hlast.
Qed.

Lemma rstrip_head c s :
  is_space c = false -> exists s', rstrip (String c s) = String c s'.
Proof. intros Hc. rewrite rstrip_cons_nonspace by assumption. eauto. Qed.

Lemma strip_spec s :
  exists l r, all_spaces l = true /\ all_spaces r = true /\
    s = l +:+ strip s +:+ r /\
    match strip s with String c _ => is_space c = false | _ => True end /\
    match last_char (strip s) with
    | Some c => is_space c = false
    | None => True
    end.
Proof.
  destruct (lstrip_spec s) as (l & Hl & Hs & Hhd).
  destruct (rstrip_spec (lstrip s)) as (r & Hr & Hs' & Hlast).
  exists l, r. unfold strip. repeat split; try assumption.
  - now rewrite <- Hs', <- Hs.
  - destruct (lstrip s) as [|c u]; [exact I|].
    destruct (rstrip_head c u Hhd) as [s' ->]. exact Hhd.
Qed.

(** *** Whitespace and digits, character by character *)

Lemma is_space_whitespace c : is_space c = existsb (Ascii.eqb c) whitespace.
Proof. destruct c as [[] [] [] [] [] [] [] []]; vm_compute; reflexivity. Qed.

Lemma is_digit_decimal c : is_digit c = existsb (Ascii.eqb c) decimal_digits.
Proof. destruct c as [[] [] [] [] [] [] [] []]; vm_compute; reflexivity. Qed.

Lemma existsb_eqb_In c (l : list ascii) :
  existsb (Ascii.eqb c) l = true <-> In c l.
Proof.
  rewrite existsb_exists. split.
  - intros (x & Hx & Heq). apply Ascii.eqb_eq in Heq. now subst.
  - intros Hc. exists c. split; [assumption | apply Ascii.eqb_refl].
Qed.

Lemma is_space_In c : is_space c = true <-> In c whitespace.
Proof. rewrite is_space_whitespace. apply existsb_eqb_In. Qed.

Lemma is_digit_In c : is_digit c = true <-> In c decimal_digits.
Proof. rewrite is_digit_decimal. apply existsb_eqb_In. Qed.

Lemma blank_all_spaces s : blank s = all_spaces s.
Proof.
  unfold blank. induction s as [|c s IH]; [reflexivity|].
  cbn [list_ascii_of_string forallb all_spaces].
  now rewrite IH, is_space_whitespace.
Qed.

Lemma all_spaces_app l r :
  all_spaces (l +:+ r) = all_spaces l && all_spaces r.
Proof.
  induction l as [|c l IH]; [reflexivity|].
  rewrite append_cons. cbn [all_spaces]. now rewrite IH, andb_assoc.
Qed.

Lemma lstrip_spaces s : all_spaces s = true -> lstrip s = EmptyString.
Proof.
  induction s as [|c s IH]; [reflexivity|]. cbn [all_spaces lstrip].
  intros H. apply andb_true_iff in H as [-> Hs]. auto.
Qed.

Lemma lstrip_empty s : lstrip s = EmptyString -> all_spaces s = true.
Proof.
  induction s as [|c s IH]; [reflexivity|]. cbn [all_spaces lstrip].
  destruct (is_space c); [auto | discriminate].
Qed.

Lemma rstrip_spaces s : all_spaces s = true -> rstrip s = EmptyString.
Proof.
  induction s as [|c s IH]; [reflexivity|]. cbn [all_spaces rstrip].
  intros H. apply andb_true_iff in H as [Hc Hs]. now rewrite IH, Hc.
Qed.

(** A text is stripped to nothing exactly when it is whitespace only. *)
Lemma strip_empty_iff s : strip s = EmptyString <-> blank s = true.
Proof.
  rewrite blank_all_spaces. split.
  - intros He. destruct (strip_spec s) as (l & r & Hl & Hr & Hs & _).
    rewrite He, append_nil in Hs. rewrite Hs, all_spaces_app, Hl, Hr. reflexivity.
  - intros Hs. unfold strip. now rewrite (lstrip_spaces s Hs).
Qed.

Lemma lstrip_app_spaces l s : all_spaces l = true -> lstrip (l +:+ s) = lstrip s.
Proof.
  induction l as [|c l IH]; [reflexivity|]. cbn [all_spaces].
  intros H. apply andb_true_iff in H as [Hc Hl].
  rewrite append_cons. cbn [lstrip]. rewrite Hc. auto.
Qed.

Lemma lstrip_app s r :
  lstrip s <> EmptyString -> lstrip (s +:+ r) = lstrip s +:+ r.
Proof.
  induction s as [|c s IH]; [easy|]. rewrite append_cons. cbn [lstrip].
  destruct (is_space c); [exact IH|]. intros _. now rewrite append_cons.
Qed.

Lemma rstrip_app_spaces s r : all_spaces r = true -> rstrip (s +:+ r) = rstrip s.
Proof.
  intros Hr. induction s as [|c s IH].
  - rewrite append_nil. now apply rstrip_spaces.
  - rewrite append_cons. cbn [rstrip]. now rewrite IH.
Qed.

(** Whitespace around a text does not reach the stripped text. *)
Lemma strip_surrounded l s r :
  all_spaces l = true -> all_spaces r = true ->
  strip (l +:+ s +:+ r) = strip s.
Proof.
  intros Hl Hr. unfold strip. rewrite lstrip_app_spaces by assumption.
  destruct (lstrip s) as [|c u] eqn:Hs.
  - rewrite lstrip_spaces; [reflexivity|].
    rewrite all_spaces_app, Hr, (lstrip_empty s Hs). reflexivity.
  - rewrite lstrip_app by congruence. rewrite Hs.
    now apply rstrip_app_spaces.
Qed.

(** *** The signature as a digit variant of the stripped text *)

Lemma digit_run_split s :
  exists d rest, s = d +:+ rest /\ all_digits d = true /\
    match rest with String c _ => is_digit c = false | _ => True end /\
    (String.length rest <= String.length s)%nat.
Proof.
  induction s as [|c s (d & rest & Hs & Hd & Hrest & Hlen)].
  - now exists EmptyString, EmptyString.
  - destruct (is_digit c) eqn:Hc.
    + exists (String c d), rest. rewrite append_cons, <- Hs.
      cbn [all_digits String.length]. rewrite Hc, Hd. repeat split; [assumption | lia].
    + exists EmptyString, (String c s). rewrite append_nil. now repeat split.
Qed.

Lemma sub_digits_from_flag b s :
  match s with String c _ => is_digit c = false | _ => True end ->
  sub_digits_from b s = sub_digits_from false s.
Proof. destruct s as [|c s]; [reflexivity|]. cbn [sub_digits_from]. now intros ->. Qed.

Lemma digit_variant_of_sub_digits n : forall s,
  (String.length s <= n)%nat -> digit_variant s (sub_digits_from false s).
Proof.
  induction n as [|n IH]; intros s Hn.
  - destruct s; [constructor | cbn in Hn; lia].
  - destruct s as [|c s]; [constructor|]. cbn [String.length] in Hn.
    destruct (is_digit c) eqn:Hc.
    + destruct (digit_run_split s) as (d & rest & Hs & Hd & Hrest & Hlen).
      subst s. rewrite <- append_cons.
      rewrite sub_digits_from_run; [| easy | cbn [all_digits]; now rewrite Hc, Hd].
      rewrite (sub_digits_from_flag true rest Hrest).
      apply dv_run; try easy; [cbn [all_digits]; now rewrite Hc, Hd|].
      apply IH. lia.
    + cbn [sub_digits_from]. rewrite Hc. constructor; [assumption|].
      apply IH. lia.
Qed.

End StringFacts.

(** ** The signature is a normal form *)

Section SignatureNormalForm.

Import PyStr.

#[local] Arguments is_space : simpl never.
#[local] Arguments is_digit : simpl never.

Lemma one_is_digit : is_digit "1" = true.
Proof. reflexivity. Qed.

Lemma sub_digits_from_canonical s :
  forall b, digits_canonical_from b (sub_digits_from b s) = true.
Proof.
  induction s as [|c s IH]; intros b; [reflexivity|].
  cbn [sub_digits_from]. destruct (is_digit c) eqn:Hc.
  - destruct b; [apply IH|].
    cbn [digits_canonical_from]. rewrite one_is_digit. cbn. apply IH.
  - cbn [digits_canonical_from]. rewrite Hc. apply IH.
Qed.

Lemma sub_digits_from_fixed s :
  forall b, digits_canonical_from b s = true -> sub_digits_from b s = s.
Proof.
  induction s as [|c s IH]; intros b H; [reflexivity|].
  cbn [digits_canonical_from] in H. cbn [sub_digits_from].
  destruct (is_digit c) eqn:Hc.
  - apply andb_true_iff in H as [H Hs]. apply andb_true_iff in H as [Hb H1].
    apply Ascii.eqb_eq in H1. subst c. destruct b; [discriminate Hb|].
    now rewrite IH.
  - now rewrite IH.
Qed.

Lemma sub_digits_from_empty s :
  sub_digits_from false s = EmptyString -> s = EmptyString.
Proof.
  destruct s as [|c s]; [reflexivity|]. cbn [sub_digits_from].
  now destruct (is_digit c).
Qed.

Lemma last_char_cons c s :
  last_char (String c s) =
  match s with EmptyString => Some c | _ => last_char s end.
Proof. now destruct s. Qed.

Lemma sub_digits_from_last s : forall b,
  match last_char s with Some c => is_space c = false | None => True end ->
  match last_char (sub_digits_from b s) with
  | Some c => is_space c = false
  | None => True
  end.
Proof.
  induction s as [|c s IH]; intros b H; [exact I|].
  rewrite last_char_cons in H. cbn [sub_digits_from].
  destruct (is_digit c) eqn:Hc.
  - destruct b.
    + destruct s as [|c' s']; [exact I|]. now apply IH.
    + rewrite last_char_cons.
      destruct (sub_digits_from true s) as [|a X] eqn:HX; [reflexivity|].
      rewrite <- HX. destruct s as [|c' s']; [discriminate HX|]. now apply IH.
  - rewrite last_char_cons.
    destruct (sub_digits_from false s) as [|a X] eqn:HX.
    + apply sub_digits_from_empty in HX. now subst s.
    + rewrite <- HX. destruct s as [|c' s']; [discriminate HX|]. now apply IH.
Qed.

Lemma lstrip_trimmed s :
  match s with String c _ => is_space c = false | _ => True end -> lstrip s = s.
Proof. destruct s as [|c s]; [reflexivity|]. cbn [lstrip]. now intros ->. Qed.

Lemma rstrip_trimmed s :
  match last_char s with Some c => is_space c = false | None => True end ->
  rstrip s = s.
Proof.
  induction s as [|c s IH]; intros H; [reflexivity|].
  rewrite last_char_cons in H. cbn [rstrip].
  destruct s as [|c' s']; [cbn; now rewrite H|].
  rewrite IH by assumption. reflexivity.
Qed.

Lemma strip_trimmed s : trimmed s -> strip s = s.
Proof.
  intros [Hhd Hlast]. unfold strip. rewrite lstrip_trimmed by assumption.
  now apply rstrip_trimmed.
Qed.

Lemma signature_trimmed s : trimmed (signature s).
Proof.
  unfold signature, sub_digits.
  destruct (strip_spec s) as (_ & _ & _ & _ & _ & Hhd & Hlast).
  split.
  - destruct (strip s) as [|c u]; [exact I|]. cbn [sub_digits_from].
    destruct (is_digit c) eqn:Hc; [reflexivity | exact Hhd].
  - now apply sub_digits_from_last.
Qed.

End SignatureNormalForm.

(* ===================================================================== *)
(** * Facts about the built-ins                                          *)
(* ===================================================================== *)

Section BuiltinFacts.

Lemma py_index_head {A} (l : list A) (i : nat) :
  py_index l (head_index i) = l !! i.
Proof.
  unfold py_index, head_index.
  destruct (Z.leb_spec 0 (Z.of_nat i)); [|lia]. cbn [andb].
  destruct (Z.ltb_spec (Z.of_nat i) (Z.of_nat (length l))).
  - now rewrite Nat2Z.id.
  - destruct (Z.leb_spec (- Z.of_nat (length l)) (Z.of_nat i)),
      (Z.ltb_spec (Z.of_nat i) 0); cbn [andb]; try lia;
      symmetry; apply lookup_ge_None; lia.
Qed.

Lemma py_index_tail {A} (l : list A) (i : nat) :
  (i < length l)%nat -> py_index l (tail_index i) = reverse l !! i.
Proof.
  intros Hi. unfold py_index, tail_index.
  destruct (Z.leb_spec 0 (- (Z.of_nat i + 1))); [lia|]. cbn [andb].
  destruct (Z.leb_spec (- Z.of_nat (length l)) (- (Z.of_nat i + 1))); [|lia].
  destruct (Z.ltb_spec (- (Z.of_nat i + 1)) 0); [|lia]. cbn [andb].
  rewrite reverse_lookup by assumption. f_equal. lia.
Qed.

Lemma fold_max_ge r : forall x, x <= fold_left Z.max r x.
Proof.
  induction r as [|y r IH]; intros x; cbn; [lia|].
  specialize (IH (Z.max x y)). lia.
Qed.

Lemma fold_max_spec r : forall x,
  In (fold_left Z.max r x) (x :: r) /\
  forall y, In y (x :: r) -> y <= fold_left Z.max r x.
Proof.
  induction r as [|z r IH]; intros x; cbn [fold_left].
  - split; [now left|]. intros y [->|[]]. lia.
  - destruct (IH (Z.max x z)) as [Hin Hub]. split.
    + destruct Hin as [Heq|Hin]; [|now right; right].
      rewrite <- Heq. destruct (Z.max_spec x z) as [[_ ->]|[_ ->]];
        [right; now left | now left].
    + intros y [->|[->|Hy]].
      * specialize (Hub _ (or_introl eq_refl)). lia.
      * specialize (Hub _ (or_introl eq_refl)). lia.
      * apply Hub. now right.
Qed.

Lemma fold_min_spec r : forall x,
  In (fold_left Z.min r x) (x :: r) /\
  forall y, In y (x :: r) -> fold_left Z.min r x <= y.
Proof.
  induction r as [|z r IH]; intros x; cbn [fold_left].
  - split; [now left|]. intros y [->|[]]. lia.
  - destruct (IH (Z.min x z)) as [Hin Hlb]. split.
    + destruct Hin as [Heq|Hin]; [|now right; right].
      rewrite <- Heq. destruct (Z.min_spec x z) as [[_ ->]|[_ ->]];
        [now left | right; now left].
    + intros y [->|[->|Hy]].
      * specialize (Hlb _ (or_introl eq_refl)). lia.
      * specialize (Hlb _ (or_introl eq_refl)). lia.
      * apply Hlb. now right.
Qed.

Lemma py_max_spec l d : is_max_of l d (py_max l d).
Proof. destruct l as [|x r]; [reflexivity|]. apply fold_max_spec. Qed.

Lemma py_min_spec l d : is_min_of l d (py_min l d).
Proof. destruct l as [|x r]; [reflexivity|]. apply fold_min_spec. Qed.

End BuiltinFacts.

(* ===================================================================== *)
(** * Facts about counters                                               *)
(* ===================================================================== *)

Section CounterFacts.

Implicit Types (c : gmap string Z) (k s : string).

Lemma get_empty k : Counter.get ∅ k = 0.
Proof. unfold Counter.get. now rewrite lookup_empty. Qed.

Lemma get_incr c k s :
  Counter.get (Counter.incr k c) s =
  Counter.get c s + (if String.eqb s k then 1 else 0).
Proof.
  unfold Counter.incr, Counter.get.
  destruct (String.eqb_spec s k) as [->|Hne].
  - now rewrite lookup_insert_eq.
  - rewrite lookup_insert_ne by congruence. lia.
Qed.

Lemma get_add_all keys : forall c s,
  Counter.get (add_all keys c) s = Counter.get c s + occurrences s keys.
Proof.
  unfold add_all, occurrences.
  induction keys as [|k keys IH]; intros c s; cbn [fold_left List.filter].
  - cbn. lia.
  - rewrite IH, get_incr. destruct (String.eqb s k); cbn [length]; lia.
Qed.

Lemma occurrences_le_length s keys :
  0 <= occurrences s keys <= Z.of_nat (length keys).
Proof.
  unfold occurrences. split; [lia|].
  apply inj_le. induction keys as [|k keys IH]; cbn; [lia|].
  destruct (String.eqb s k); cbn; lia.
Qed.

Lemma occurrences_app s (l1 l2 : list string) :
  occurrences s (l1 ++ l2) = occurrences s l1 + occurrences s l2.
Proof.
  unfold occurrences. rewrite List.filter_app, length_app. lia.
Qed.

End CounterFacts.

(* ===================================================================== *)
(** * The two passes of the detector, window by window                   *)
(* ===================================================================== *)

Section DetectorFacts.

Context {Margin : Type}.
Variable sort : list Block.t -> list Block.t.

Implicit Types (bs : list Block.t) (p : RawPage.t Margin)
  (headers footers : gmap string Z).

Lemma candidate_head bs i : candidate bs i (head_index i) = bs !! i ≫= keyed.
Proof.
  unfold candidate. rewrite py_index_head.
  destruct (Nat.ltb_spec i (length bs)) as [Hi|Hi].
  - now destruct (bs !! i).
  - now rewrite (proj2 (lookup_ge_None bs i)) by lia.
Qed.

Lemma candidate_tail bs i :
  candidate bs i (tail_index i) = reverse bs !! i ≫= keyed.
Proof.
  unfold candidate.
  destruct (Nat.ltb_spec i (length bs)) as [Hi|Hi].
  - rewrite py_index_tail by assumption. now destruct (reverse bs !! i).
  - rewrite (proj2 (lookup_ge_None (reverse bs) i)); [reflexivity|].
    rewrite length_reverse. lia.
Qed.

(** Under the guard [i < len(blocks)] neither [blocks[i]] nor
    [blocks[-(i+1)]] raises IndexError. *)
Lemma guarded_index_defined bs i :
  (i < length bs)%nat ->
  is_Some (py_index bs (head_index i)) /\ is_Some (py_index bs (tail_index i)).
Proof.
  intros Hi. rewrite py_index_head, py_index_tail by assumption.
  split; apply lookup_lt_is_Some; [|rewrite length_reverse]; assumption.
Qed.

Lemma tally_body_fold bs headers footers :
  fold_left (tally_body bs) (range 3) (headers, footers) =
  (add_all (window_keys (head_window bs)) headers,
   add_all (window_keys (tail_window bs)) footers).
Proof.
  unfold range. cbn [seq fold_left]. unfold tally_body.
  rewrite !candidate_head, !candidate_tail.
  unfold head_window, tail_window, window_keys, add_all, signature_of, keyed.
  generalize (reverse bs) as rb. intros rb.
  destruct bs as [|a0 [|a1 [|a2 bs]]], rb as [|b0 [|b1 [|b2 rb]]];
    cbn; repeat (destruct (Block.text _)); reflexivity.
Qed.

Lemma classify_body_fold bs headers footers t :
  fold_left (classify_body headers footers t bs) (range 3) ([], []) =
  (List.filter (exceeds headers t) (head_window bs),
   List.filter (exceeds footers t) (tail_window bs)).
Proof.
  unfold range. cbn [seq fold_left]. unfold classify_body.
  rewrite !candidate_head, !candidate_tail.
  unfold head_window, tail_window, exceeds, keyed.
  generalize (reverse bs) as rb. intros rb.
  destruct bs as [|a0 [|a1 [|a2 bs]]], rb as [|b0 [|b1 [|b2 rb]]];
    cbn; repeat (destruct (Block.text _); cbn);
    repeat (destruct (_ <? _); cbn); reflexivity.
Qed.

Lemma tally_page_spec headers footers p :
  tally_page sort (headers, footers) p =
  (add_all (page_head_keys sort p) headers,
   add_all (page_tail_keys sort p) footers).
Proof.
  unfold tally_page, page_head_keys, page_tail_keys.
  destruct (RawPage.blocks p) as [|b bs]; [reflexivity|].
  apply tally_body_fold.
Qed.

Lemma add_all_app (l1 l2 : list string) c :
  add_all (l1 ++ l2) c = add_all l2 (add_all l1 c).
Proof. unfold add_all. apply fold_left_app. Qed.

Lemma fold_tally_page (raw_pages : list (RawPage.t Margin)) :
  forall headers footers,
  fold_left (tally_page sort) raw_pages (headers, footers) =
  (add_all (flat_map (page_head_keys sort) raw_pages) headers,
   add_all (flat_map (page_tail_keys sort) raw_pages) footers).
Proof.
  induction raw_pages as [|p ps IH]; intros headers footers; [reflexivity|].
  cbn [fold_left flat_map]. rewrite tally_page_spec, IH.
  now rewrite !add_all_app.
Qed.

(** The counters after the first pass. *)
Lemma tally_spec (raw_pages : list (RawPage.t Margin)) :
  tally sort raw_pages =
  (add_all (flat_map (page_head_keys sort) raw_pages) ∅,
   add_all (flat_map (page_tail_keys sort) raw_pages) ∅).
Proof. apply fold_tally_page. Qed.

Lemma tally_get (raw_pages : list (RawPage.t Margin)) s :
  Counter.get (tally sort raw_pages).1 s =
    occurrences s (flat_map (page_head_keys sort) raw_pages) /\
  Counter.get (tally sort raw_pages).2 s =
    occurrences s (flat_map (page_tail_keys sort) raw_pages).
Proof.
  rewrite tally_spec. cbn [fst snd]. rewrite !get_add_all, !get_empty. lia.
Qed.

Lemma window_keys_length w : (length (window_keys w) <= length w)%nat.
Proof.
  unfold window_keys. induction w as [|b w IH]; cbn; [lia|].
  destruct (signature_of b); cbn; lia.
Qed.

Lemma page_keys_length p :
  (length (page_head_keys sort p) <= 3)%nat /\
  (length (page_tail_keys sort p) <= 3)%nat.
Proof.
  unfold page_head_keys, page_tail_keys, head_window, tail_window.
  destruct (RawPage.blocks p) as [|b bs]; [cbn; lia|].
  split; (etransitivity; [apply window_keys_length|]);
    rewrite length_take; lia.
Qed.

Lemma flat_map_keys_length (f : RawPage.t Margin -> list string)
    (raw_pages : list (RawPage.t Margin)) :
  (forall p, (length (f p) <= 3)%nat) ->
  (length (flat_map f raw_pages) <= 3 * length raw_pages)%nat.
Proof.
  intros Hf. induction raw_pages as [|p ps IH]; cbn [flat_map length]; [lia|].
  rewrite length_app. specialize (Hf p). lia.
Qed.

(** What the second loop does to one page. *)
Lemma classified_spec headers footers t p :
  classified sort headers footers t p =
  (List.filter (exceeds headers t) (head_window (sort (RawPage.blocks p))),
   List.filter (exceeds footers t) (tail_window (sort (RawPage.blocks p)))).
Proof. apply classify_body_fold. Qed.

Lemma classify_page_spec headers footers t p :
  RawPage.blocks p <> [] ->
  classify_page sort headers footers t p =
  RawPage.set_header_footer (sorted_in_place sort p)
    (py_max (map bottom_y (classified sort headers footers t p).1) 0)
    (py_min (map top_y (classified sort headers footers t p).2)
       (getitem (RawPage.bbox p) 3)).
Proof.
  intros Hne. unfold classify_page.
  destruct (RawPage.blocks p) as [|b bs]; [congruence|].
  now destruct (classified sort headers footers t p).
Qed.

Lemma classify_page_empty headers footers t p :
  RawPage.blocks p = [] -> classify_page sort headers footers t p = p.
Proof. intros He. unfold classify_page. now rewrite He. Qed.

Lemma parse_header_footer_lookup (raw_pages : list (RawPage.t Margin)) k :
  _parse_header_footer sort raw_pages !! k =
  classify_page sort (tally sort raw_pages).1 (tally sort raw_pages).2
    (threshold (Z.of_nat (length raw_pages))) <$>
  (sorted_in_place sort <$> raw_pages !! k).
Proof.
  unfold _parse_header_footer. destruct (tally sort raw_pages) as [h f].
  cbn [fst snd]. rewrite <- list_lookup_fmap. apply list_lookup_fmap.
Qed.

(** *** The two loops on the same page *)

Lemma sorted_in_place_empty p :
  RawPage.blocks p = [] -> sorted_in_place sort p = p.
Proof. intros He. unfold sorted_in_place. now rewrite He. Qed.

Lemma sorted_in_place_blocks p :
  RawPage.blocks p <> [] ->
  RawPage.blocks (sorted_in_place sort p) = sort (RawPage.blocks p).
Proof.
  intros Hne. unfold sorted_in_place.
  now destruct (RawPage.blocks p) as [|b bs]; [congruence|].
Qed.

Lemma sorted_in_place_bbox p :
  RawPage.bbox (sorted_in_place sort p) = RawPage.bbox p.
Proof. unfold sorted_in_place. now destruct (RawPage.blocks p). Qed.

Section Sorted.

Hypothesis Hsort : reading_order_sort sort.

Lemma sorted_in_place_keeps_blocks p :
  RawPage.blocks p <> [] -> RawPage.blocks (sorted_in_place sort p) <> [].
Proof.
  intros Hne. rewrite sorted_in_place_blocks by assumption.
  intros He. now apply (proj2 Hsort) in He.
Qed.

Lemma sorted_in_place_twice p :
  sorted_in_place sort (sorted_in_place sort p) = sorted_in_place sort p.
Proof.
  destruct (RawPage.blocks p) as [|b bs] eqn:Hb.
  - rewrite (sorted_in_place_empty p Hb). now apply sorted_in_place_empty.
  - unfold sorted_in_place. rewrite Hb. cbn [RawPage.set_blocks RawPage.blocks].
    destruct (sort (b :: bs)) as [|c cs] eqn:Hs.
    + now apply (proj2 Hsort) in Hs.
    + rewrite <- Hs, (proj1 Hsort). reflexivity.
Qed.

Lemma classified_sorted_in_place headers footers t p :
  classified sort headers footers t (sorted_in_place sort p) =
  classified sort headers footers t p.
Proof.
  destruct (RawPage.blocks p) as [|b bs] eqn:Hb.
  - now rewrite (sorted_in_place_empty p Hb).
  - unfold classified. rewrite sorted_in_place_blocks by congruence.
    now rewrite (proj1 Hsort).
Qed.

(** What the two loops together make of a page. *)
Lemma both_loops_page headers footers t p :
  classify_page sort headers footers t (sorted_in_place sort p) =
  match RawPage.blocks p with
  | [] => p
  | _ =>
      RawPage.set_header_footer (sorted_in_place sort p)
        (py_max (map bottom_y (classified sort headers footers t p).1) 0)
        (py_min (map top_y (classified sort headers footers t p).2)
           (getitem (RawPage.bbox p) 3))
  end.
Proof.
  destruct (RawPage.blocks p) as [|b bs] eqn:Hb.
  - rewrite (sorted_in_place_empty p Hb). now apply classify_page_empty.
  - rewrite classify_page_spec by (apply sorted_in_place_keeps_blocks; congruence).
    now rewrite sorted_in_place_twice, classified_sorted_in_place,
      sorted_in_place_bbox.
Qed.

Lemma detector_lookup (raw_pages : list (RawPage.t Margin)) k p :
  raw_pages !! k = Some p ->
  _parse_header_footer sort raw_pages !! k =
  Some match RawPage.blocks p with
       | [] => p
       | _ =>
           let cl := classified sort (tally sort raw_pages).1
                       (tally sort raw_pages).2
                       (threshold (Z.of_nat (length raw_pages))) p in
           RawPage.set_header_footer (sorted_in_place sort p)
             (py_max (map bottom_y cl.1) 0)
             (py_min (map top_y cl.2) (getitem (RawPage.bbox p) 3))
       end.
Proof.
  intros Hk. rewrite parse_header_footer_lookup, Hk.
  cbn [fmap option_fmap option_map]. now rewrite both_loops_page.
Qed.

End Sorted.

End DetectorFacts.

(* ===================================================================== *)
(** * Totals, windows and pages without text                             *)
(* ===================================================================== *)

Section MoreDetectorFacts.

Context {Margin : Type}.
Variable sort : list Block.t -> list Block.t.

Implicit Types (bs : list Block.t) (p : RawPage.t Margin).

Lemma total_insert_fresh (c : gmap string Z) k v :
  c !! k = None -> total (<[k := v]> c) = v + total c.
Proof.
  intros Hk. unfold total. apply map_fold_insert_L; [|assumption].
  intros. lia.
Qed.

Lemma total_incr (c : gmap string Z) k :
  total (Counter.incr k c) = total c + 1.
Proof.
  unfold Counter.incr, Counter.get. destruct (c !! k) as [v|] eqn:Hk.
  - cbn [default]. rewrite <- (insert_delete_eq c k (v + 1)).
    rewrite <- (insert_delete_id c k v Hk) at 2.
    rewrite !total_insert_fresh by apply lookup_delete_eq. lia.
  - cbn [default]. rewrite total_insert_fresh by assumption. lia.
Qed.

Lemma total_add_all keys : forall c : gmap string Z,
  total (add_all keys c) = total c + Z.of_nat (length keys).
Proof.
  unfold add_all. induction keys as [|k keys IH]; intros c; cbn [fold_left length].
  - lia.
  - rewrite IH, total_incr. lia.
Qed.

Lemma total_empty : total (∅ : gmap string Z) = 0.
Proof. unfold total. apply map_fold_empty. Qed.

Lemma window_keys_nil w :
  (forall b, In b w -> Block.text b = None) -> window_keys w = [].
Proof.
  unfold window_keys, signature_of. induction w as [|b w IH]; intros Hw; [reflexivity|].
  cbn. rewrite (Hw b) by now left. cbn. apply IH. intros b' Hb'. apply Hw. now right.
Qed.

Lemma no_qualifying_no_keys p :
  no_qualifying_blocks sort p ->
  page_head_keys sort p = [] /\ page_tail_keys sort p = [].
Proof.
  unfold page_head_keys, page_tail_keys. intros [He|Hw].
  - now rewrite He.
  - destruct (RawPage.blocks p) as [|b bs]; [easy|].
    split; apply window_keys_nil; intros b' Hb'; apply Hw; auto.
Qed.

Lemma filter_exceeds_nil c t w :
  (forall b, In b w -> Block.text b = None) -> List.filter (exceeds c t) w = [].
Proof.
  induction w as [|b w IH]; intros Hw; [reflexivity|].
  cbn. unfold exceeds at 1. rewrite (Hw b) by now left.
  apply IH. intros b' Hb'. apply Hw. now right.
Qed.

Lemma exceeds_true c t b :
  exceeds c t b = true <->
  exists x, Block.text b = Some x /\ t < Counter.get c (PyStr.signature x).
Proof.
  unfold exceeds. destruct (Block.text b) as [x|].
  - rewrite Z.ltb_lt. split; [eauto|]. now intros (? & [= <-] & ?).
  - split; [easy|]. now intros (? & ? & _).
Qed.

(** No count above the threshold, no classified block. *)
Lemma filter_exceeds_low c t w :
  (forall s, Counter.get c s <= t) -> List.filter (exceeds c t) w = [].
Proof.
  intros Hlow. induction w as [|b w IH]; [reflexivity|].
  cbn. destruct (exceeds c t b) eqn:Hb; [|exact IH].
  apply exceeds_true in Hb as (x & _ & Hx). specialize (Hlow (PyStr.signature x)). lia.
Qed.

Lemma flat_map_middle {A B} (f : A -> list B) pre x post :
  f x = [] -> flat_map f (pre ++ x :: post) = flat_map f (pre ++ post).
Proof.
  intros Hx. rewrite !flat_map_app. cbn [flat_map]. now rewrite Hx.
Qed.

End MoreDetectorFacts.

Section BoundaryFacts.

Lemma occurrences_pos s (keys : list string) :
  In s keys -> 1 <= occurrences s keys.
Proof.
  unfold occurrences. intros Hin.
  assert (In s (List.filter (String.eqb s) keys)) as Hf
    by (apply filter_In; split; [assumption | apply String.eqb_refl]).
  destruct (List.filter (String.eqb s) keys); [easy | cbn [length]; lia].
Qed.

Lemma window_keys_In w b x :
  In b w -> Block.text b = Some x -> In (PyStr.signature x) (window_keys w).
Proof.
  unfold window_keys, signature_of. intros Hb Hx.
  induction w as [|a w IH]; [easy|]. cbn [omap list_omap].
  destruct Hb as [->|Hb].
  - rewrite Hx. cbn. now left.
  - destruct (PyStr.signature <$> Block.text a); [right|]; now apply IH.
Qed.

(** A header boundary greater than 0 is the bottom of a header block, and
    a footer boundary less than the default is the top of a footer block. *)
Lemma py_max_pos {A} (g : A -> Z) (l : list A) :
  0 < py_max (map g l) 0 -> exists a, In a l /\ py_max (map g l) 0 = g a.
Proof.
  intros Hpos. pose proof (py_max_spec (map g l) 0) as Hspec.
  destruct l as [|a l]; [cbn in *; lia|].
  destruct Hspec as [Hin _]. apply in_map_iff in Hin as (a' & Ha' & Hin). eauto.
Qed.

Lemma py_min_below {A} (g : A -> Z) (l : list A) d :
  py_min (map g l) d < d -> exists a, In a l /\ py_min (map g l) d = g a.
Proof.
  intros Hlt. pose proof (py_min_spec (map g l) d) as Hspec.
  destruct l as [|a l]; [cbn in *; lia|].
  destruct Hspec as [Hin _]. apply in_map_iff in Hin as (a' & Ha' & Hin). eauto.
Qed.

End BoundaryFacts.

Lemma py_max_ge {A} (g : A -> Z) (l : list A) d a :
  In a l -> g a <= py_max (map g l) d.
Proof.
  intros Hin. pose proof (py_max_spec (map g l) d) as Hspec.
  destruct l as [|a0 l]; [easy|]. destruct Hspec as [_ Hall].
  apply Hall. now apply in_map.
Qed.

Lemma py_min_le {A} (g : A -> Z) (l : list A) d a :
  In a l -> py_min (map g l) d <= g a.
Proof.
  intros Hin. pose proof (py_min_spec (map g l) d) as Hspec.
  destruct l as [|a0 l]; [easy|]. destruct Hspec as [_ Hall].
  apply Hall. now apply in_map.
Qed.

(* ===================================================================== *)
(** * The sample sort is a reading-order sort                            *)
(* ===================================================================== *)

Section SampleSort.

Import Collection.

Lemma reads_before_total a b :
  reads_before a b = false -> reads_before b a = true.
Proof.
  unfold reads_before. intros H.
  destruct (Z.ltb_spec (y0 (Block.bbox a)) (y0 (Block.bbox b))); [discriminate H|].
  destruct (Z.eqb_spec (y0 (Block.bbox a)) (y0 (Block.bbox b))) as [He|Hne].
  - destruct (Z.leb_spec (x0 (Block.bbox a)) (x0 (Block.bbox b))); [discriminate H|].
    rewrite (proj2 (Z.eqb_eq _ _)) by lia.
    rewrite (proj2 (Z.leb_le _ _)) by lia. apply orb_true_r.
  - rewrite (proj2 (Z.ltb_lt _ _)) by lia. reflexivity.
Qed.

Lemma insert_block_ordered a l :
  in_reading_order l -> in_reading_order (insert_block a l).
Proof.
  induction l as [|b r IH]; intros Hl; [exact I|].
  cbn [insert_block]. destruct (reads_before a b) eqn:Hab.
  - now split.
  - destruct r as [|c r'].
    + cbn. split; [now apply reads_before_total | exact I].
    + destruct Hl as [Hbc Hr]. specialize (IH Hr).
      cbn [insert_block] in *. destruct (reads_before a c) eqn:Hac.
      * split; [now apply reads_before_total | exact IH].
      * split; [exact Hbc | exact IH].
Qed.

Lemma sort_ordered l : in_reading_order (sort_in_reading_order l).
Proof.
  unfold sort_in_reading_order. induction l as [|a l IH]; [exact I|].
  cbn [foldr]. now apply insert_block_ordered.
Qed.

Lemma sort_of_ordered l : in_reading_order l -> sort_in_reading_order l = l.
Proof.
  unfold sort_in_reading_order. induction l as [|a l IH]; intros Hl; [reflexivity|].
  cbn [foldr]. destruct l as [|b r]; [reflexivity|].
  destruct Hl as [Hab Hr]. rewrite (IH Hr). cbn [insert_block]. now rewrite Hab.
Qed.

Lemma insert_block_not_nil a l : insert_block a l <> [].
Proof. destruct l as [|b r]; cbn; [easy|]. now destruct (reads_before a b). Qed.

Lemma sample_sort_is_sort : reading_order_sort sort_in_reading_order.
Proof.
  split.
  - intros l. apply sort_of_ordered, sort_ordered.
  - intros [|a l]; [reflexivity|]. unfold sort_in_reading_order. cbn [foldr].
    intros H. now apply insert_block_not_nil in H.
Qed.

End SampleSort.

(* ===================================================================== *)
(** * The three phases of [parse]                                        *)
(* ===================================================================== *)

Section CoordinatorFacts.

Context {Document Settings Fonts Margin Section_ Image : Type}.
Variable C : Collaborators Document Settings Fonts Margin Section_ Image.
Variables (fitz_doc : Document) (settings : Settings).

Implicit Types (p : Page.t Margin Section_ Image)
  (l done rest : list (Page.t Margin Section_ Image))
  (rp : RawPage.t Margin) (raws : list (RawPage.t Margin)).

#[local] Abbreviation body :=
  (extract_body C fitz_doc settings (Fonts_extract C fitz_doc)).

Lemma insert_middle {A} (l1 l2 : list A) (x y : A) :
  <[length l1 := x]> (l1 ++ y :: l2) = l1 ++ x :: l2.
Proof.
  rewrite <- (Nat.add_0_r (length l1)) at 1. now rewrite insert_app_r.
Qed.

Lemma analysed_cons p l :
  analysed (p :: l) = if Page.skip_parsing p then analysed l else p :: analysed l.
Proof. unfold analysed, analysed_page. cbn. now destruct (Page.skip_parsing p). Qed.

Lemma analysed_app l1 l2 : analysed (l1 ++ l2) = analysed l1 ++ analysed l2.
Proof. apply List.filter_app. Qed.

(** The first loop, from any position on: [done] has been visited, [rest]
    is still to come. *)
Lemma extract_fold rest : forall done idx raws found,
  fold_left body (seq (length done) (length rest))
    {| self := done ++ rest; pages := idx;
       raw_pages := raws; words_found := found |} =
  {| self := done ++ map (after_extraction C fitz_doc settings) rest;
     pages := idx ++ positions_from (length done) rest;
     raw_pages := raws ++ map (prepared C fitz_doc settings) (analysed rest);
     words_found :=
       found || existsb (yields_text C fitz_doc settings) (analysed rest) |}.
Proof.
  induction rest as [|p rest IH]; intros done idx raws found.
  - cbn. now rewrite !app_nil_r, orb_false_r.
  - cbn [length seq fold_left map positions_from]. rewrite analysed_cons.
    unfold extract_body at 2. cbn [self pages raw_pages words_found].
    rewrite (list_lookup_middle done rest p (length done) eq_refl).
    unfold after_extraction at 1.
    destruct (Page.skip_parsing p) eqn:Hskip.
    + specialize (IH (done ++ [p]) idx raws found).
      rewrite length_app in IH. cbn [length] in IH.
      replace (length done + 1)%nat with (S (length done)) in IH by lia.
      rewrite <- app_assoc in IH. cbn [app] in IH.
      rewrite IH, <- app_assoc. reflexivity.
    + fold (extracted C fitz_doc settings p).
      fold (prepared C fitz_doc settings p).
      set (p' := Page.set_basic _ p _ _ _).
      set (found' := if negb found && _ then true else found).
      rewrite (insert_middle done rest p' p).
      specialize (IH (done ++ [p']) (idx ++ [length done])
                    (raws ++ [prepared C fitz_doc settings p]) found').
      rewrite length_app in IH. cbn [length] in IH.
      replace (length done + 1)%nat with (S (length done)) in IH by lia.
      rewrite <- app_assoc in IH. cbn [app] in IH.
      rewrite IH, <- !app_assoc. cbn [app map existsb].
      f_equal. subst found'. unfold yields_text at 2.
      now destruct found, (PyStr.truthy _).
Qed.

(** The last loop, from any position on. *)
Lemma section_fold rest : forall done raws,
  fold_left (section_body C settings)
    (zip (positions_from (length done) rest) raws) (done ++ rest) =
  done ++ laid_out C settings rest raws.
Proof.
  induction rest as [|p rest IH]; intros done raws; [reflexivity|].
  cbn [positions_from laid_out].
  destruct (Page.skip_parsing p) eqn:Hskip.
  - specialize (IH (done ++ [p]) raws).
    rewrite length_app in IH. cbn [length] in IH.
    replace (length done + 1)%nat with (S (length done)) in IH by lia.
    rewrite <- !app_assoc in IH. exact IH.
  - destruct raws as [|rp raws]; [reflexivity|].
    cbn [zip zip_with fold_left]. unfold section_body at 2.
    rewrite (list_lookup_middle done rest p (length done) eq_refl).
    rewrite insert_middle. fold (with_layout C settings p rp).
    specialize (IH (done ++ [with_layout C settings p rp]) raws).
    rewrite length_app in IH. cbn [length] in IH.
    replace (length done + 1)%nat with (S (length done)) in IH by lia.
    rewrite <- !app_assoc in IH. exact IH.
Qed.

Lemma skip_after_extraction p :
  Page.skip_parsing (after_extraction C fitz_doc settings p) = Page.skip_parsing p.
Proof. unfold after_extraction. now destruct (Page.skip_parsing p) eqn:H. Qed.

Lemma positions_from_map start l :
  positions_from start (map (after_extraction C fitz_doc settings) l) =
  positions_from start l.
Proof.
  revert start. induction l as [|p l IH]; intros start; [reflexivity|].
  cbn [map positions_from]. now rewrite !IH, skip_after_extraction.
Qed.

(** [parse] in one equation: the pages after the three phases, and the
    log. *)
Lemma parse_spec l :
  parse C l fitz_doc settings =
  (laid_out C settings (map (after_extraction C fitz_doc settings) l)
     (detected C fitz_doc settings l),
   if existsb (yields_text C fitz_doc settings) (analysed l)
   then [] else [no_words_warning]).
Proof.
  unfold parse.
  pose proof (extract_fold l [] [] [] false) as Hfold.
  change (length (@nil (Page.t Margin Section_ Image))) with 0%nat in Hfold.
  change ([] ++ l) with l in Hfold. rewrite Hfold.
  cbn [self pages raw_pages words_found app orb].
  rewrite <- (positions_from_map 0 l).
  rewrite (section_fold (map (after_extraction C fitz_doc settings) l) []).
  reflexivity.
Qed.

Lemma rank_cons q l i :
  rank (q :: l) (S i) =
  if Page.skip_parsing q then rank l i else S (rank l i).
Proof.
  unfold rank. cbn [take]. rewrite analysed_cons.
  now destruct (Page.skip_parsing q).
Qed.

Lemma laid_out_lookup l : forall raws i p,
  l !! i = Some p ->
  laid_out C settings l raws !! i =
  Some (if Page.skip_parsing p then p
        else match raws !! rank l i with
             | Some rp => with_layout C settings p rp
             | None => p
             end).
Proof.
  induction l as [|q l IH]; intros raws i p Hi; [easy|].
  destruct i as [|i].
  - cbn in Hi. injection Hi as ->. cbn [laid_out].
    destruct (Page.skip_parsing p) eqn:Hskip; [reflexivity|].
    now destruct raws.
  - cbn in Hi. cbn [laid_out]. rewrite rank_cons.
    destruct (Page.skip_parsing q) eqn:Hq.
    + cbn. now apply IH.
    + destruct raws as [|rp raws].
      * cbn. rewrite Hi. now destruct (Page.skip_parsing p).
      * cbn. now apply IH.
Qed.

Lemma analysed_lookup_rank l i p :
  l !! i = Some p -> Page.skip_parsing p = false ->
  analysed l !! rank l i = Some p.
Proof.
  intros Hi Hskip. unfold rank.
  pose proof (take_drop_middle l i p Hi) as Hl.
  set (l1 := take i l) in *. set (l2 := drop (S i) l) in *. rewrite <- Hl.
  rewrite analysed_app, analysed_cons, Hskip.
  now apply list_lookup_middle.
Qed.

Lemma rank_map l i :
  rank (map (after_extraction C fitz_doc settings) l) i = rank l i.
Proof.
  unfold rank. revert i. induction l as [|q l IH]; intros [|i]; try reflexivity.
  cbn [map take]. rewrite !analysed_cons, skip_after_extraction.
  destruct (Page.skip_parsing q); cbn [length]; now rewrite IH.
Qed.

Lemma laid_out_length l : forall raws,
  length (laid_out C settings l raws) = length l.
Proof.
  induction l as [|q l IH]; intros raws; [reflexivity|]. cbn [laid_out].
  destruct (Page.skip_parsing q); [cbn; now rewrite IH|].
  destruct raws; [reflexivity|cbn; now rewrite IH].
Qed.

(** What [parse] leaves at each position of the collection. *)
Lemma parse_lookup l i p :
  l !! i = Some p ->
  (parse C l fitz_doc settings).1 !! i =
  Some (if Page.skip_parsing p then p
        else match detected C fitz_doc settings l !! rank l i with
             | Some rp =>
                 with_layout C settings (after_extraction C fitz_doc settings p) rp
             | None => after_extraction C fitz_doc settings p
             end).
Proof.
  intros Hi. rewrite parse_spec. cbn [fst].
  rewrite (laid_out_lookup _ _ i (after_extraction C fitz_doc settings p)).
  - rewrite skip_after_extraction, rank_map.
    destruct (Page.skip_parsing p) eqn:Hskip; [|reflexivity].
    unfold after_extraction. now rewrite Hskip.
  - rewrite list_lookup_fmap, Hi. reflexivity.
Qed.

(** The raw page the detector hands back for the analysed page at [i]: the
    prepared raw page of the page, its blocks sorted by the first loop, as
    the second loop leaves it. *)
Lemma detected_lookup_page l i p :
  l !! i = Some p -> Page.skip_parsing p = false ->
  let sort := sort_in_reading_order C in
  let raws := map (prepared C fitz_doc settings) (analysed l) in
  detected C fitz_doc settings l !! rank l i =
  Some (classify_page sort (tally sort raws).1 (tally sort raws).2
          (threshold (Z.of_nat (length raws)))
          (sorted_in_place sort (prepared C fitz_doc settings p))).
Proof.
  intros Hi Hs. unfold detected, _parse_document.
  rewrite parse_header_footer_lookup, !list_lookup_fmap.
  rewrite (analysed_lookup_rank l i p Hi Hs). reflexivity.
Qed.

Lemma detected_lookup l i p :
  l !! i = Some p -> Page.skip_parsing p = false ->
  exists rp, detected C fitz_doc settings l !! rank l i = Some rp.
Proof.
  intros Hi Hs. unfold detected, _parse_document.
  rewrite parse_header_footer_lookup, !list_lookup_fmap.
  rewrite (analysed_lookup_rank l i p Hi Hs).
  cbn [fmap option_fmap option_map]. eauto.
Qed.

End CoordinatorFacts.

(* ===================================================================== *)
(** * The claims of the specification                                    *)
(* ===================================================================== *)

(** ** C2: the threshold *)

(** C2. For every number [n] of analysed pages (any length a list of pages
    can have: below [2 ^ 50]), the threshold of the detector follows the
    piecewise rule: it is [n] when [n] is 2 or 3, the floor of [0.4 * n]
    when [n > 10], and 4 otherwise; in particular the thresholds of 2, 3, 4,
    11 and 20 pages are 2, 3, 4, 4 and 8. *)
Theorem threshold_piecewise (n : Z) :
  n < 2 ^ 50 ->
  (n = 2 \/ n = 3 -> threshold n = n) /\
  (10 < n -> threshold n = 4 * n / 10) /\
  (n <= 1 \/ 4 <= n <= 10 -> threshold n = 4) /\
  threshold 2 = 2 /\ threshold 3 = 3 /\ threshold 4 = 4 /\
  threshold 11 = 4 /\ threshold 20 = 8.
Proof.
  intros Hn. repeat split; try reflexivity.
  - intros [->| ->]; reflexivity.
  - intros Hbig. rewrite threshold_is_rule by lia. unfold threshold_rule.
    destruct (Z.eqb_spec n 2), (Z.eqb_spec n 3), (Z.ltb_spec 10 n);
      cbn [orb]; lia.
  - intros Hsmall. unfold threshold.
    destruct (Z.ltb_spec 10 n), (Z.ltb_spec 1 n), (Z.leb_spec n 3);
      cbn [andb]; lia.
Qed.

Lemma threshold_piecewise_witness :
  12 < 2 ^ 50 /\ threshold 12 = 4 * 12 / 10 /\ threshold 7 = 4.
Proof.
  split; [reflexivity|].
  destruct (threshold_piecewise 12 eq_refl) as (_ & Hbig & _).
  destruct (threshold_piecewise 7 eq_refl) as (_ & _ & Hmid & _).
  split; [apply Hbig; reflexivity | apply Hmid; right; split; discriminate].
Defined.

(** Beyond any page count a machine can hold the product is rounded up past
    the next integer: the bound on [n] above is not an artefact. *)
Remark threshold_rounds_up_near_2_53 :
  threshold (2 ^ 53 - 5) = 4 * (2 ^ 53 - 5) / 10 + 1.
Proof. reflexivity. Qed.

(** ** C7: the signature *)

(** C7. The signature is a function of the text of a block alone that
    trims whitespace and collapses every maximal run of decimal digits to
    the digit 1. Whitespace and digits are the characters of the two lists
    [whitespace] and [decimal_digits]. Whitespace around a text does not
    reach its signature; every text is a trimmed text between two runs of
    whitespace, and its signature is that trimmed text with digit runs
    replaced, each by a single 1. Consequently two texts that differ only in
    their digit runs have the same signature. *)
Theorem signature_trims_and_collapses :
  (forall c, PyStr.is_space c = true <-> In c whitespace) /\
  (forall c, PyStr.is_digit c = true <-> In c decimal_digits) /\
  (forall l s r, blank l = true -> blank r = true ->
     PyStr.signature (l +:+ s +:+ r) = PyStr.signature s) /\
  (forall s, exists l m r,
     s = l +:+ m +:+ r /\ blank l = true /\ blank r = true /\ trimmed m /\
     digit_variant m (PyStr.signature s) /\
     digits_canonical_from false (PyStr.signature s) = true) /\
  (forall s t, digit_variant s t -> PyStr.signature s = PyStr.signature t).
Proof.
  split; [apply is_space_In|]. split; [apply is_digit_In|].
  split; [|split].
  - intros l s r Hl Hr. rewrite blank_all_spaces in Hl, Hr.
    unfold PyStr.signature. now rewrite strip_surrounded.
  - intros s. destruct (strip_spec s) as (l & r & Hl & Hr & Hs & Hhd & Hlast).
    exists l, (PyStr.strip s), r. rewrite !blank_all_spaces.
    split; [exact Hs|]. split; [exact Hl|]. split; [exact Hr|].
    split; [now split|]. split.
    + unfold PyStr.signature, PyStr.sub_digits.
      now apply (digit_variant_of_sub_digits (String.length (PyStr.strip s))).
    + apply sub_digits_from_canonical.
  - intros s t H. unfold PyStr.signature, PyStr.sub_digits.
    apply digit_variant_sub_digits, digit_variant_strip, H.
Qed.

Lemma signature_trims_and_collapses_witness :
  blank (String "009" " ") = true /\
  digit_variant "Page 1 of 10" "Page 2 of 10" /\
  PyStr.signature (String "009" " " +:+ "Page 2 of 10" +:+ "  ") =
    PyStr.signature "Page 1 of 10" /\
  PyStr.signature "Page 1 of 10" = "Page 1 of 1".
Proof.
  destruct signature_trims_and_collapses as (_ & _ & Htrim & _ & Hvar).
  assert (H : digit_variant "Page 1 of 10" "Page 2 of 10").
  { do 5 (apply dv_char; [reflexivity|]).
    apply (dv_run "1" "2" " of 10" " of 10"); try easy.
    do 4 (apply dv_char; [reflexivity|]).
    apply (dv_run "10" "10" EmptyString EmptyString); try easy.
    apply dv_nil. }
  split; [reflexivity|]. split; [exact H|]. split; [|reflexivity].
  rewrite (Htrim (String "009" " ") "Page 2 of 10" "  " eq_refl eq_refl).
  symmetry. apply (Hvar _ _ H).
Defined.

(** Every maximal run becomes one "1": a run between a text that does not
    end in a digit and a text that does not start with one. *)
Lemma sub_digits_run d post :
  d <> EmptyString -> all_digits d = true ->
  match post with String c _ => PyStr.is_digit c = false | _ => True end ->
  PyStr.sub_digits_from false (d +:+ post) =
  "1" +:+ PyStr.sub_digits_from false post /\
  PyStr.sub_digits_from true (d +:+ post) = PyStr.sub_digits_from false post.
Proof.
  intros Hd Hd' Hpost. rewrite !sub_digits_from_run by assumption.
  destruct post as [|c post]; [easy|]. cbn [PyStr.sub_digits_from].
  now rewrite Hpost.
Qed.

(** A text of whitespace only has the empty signature. *)
Lemma signature_spaces x : all_spaces x = true -> PyStr.signature x = EmptyString.
Proof.
  intros Hx. unfold PyStr.signature, PyStr.strip.
  assert (Hl : PyStr.lstrip x = EmptyString).
  { induction x as [|c x IH]; [reflexivity|]. cbn [all_spaces] in Hx.
    apply andb_true_iff in Hx as [Hc Hx]. cbn [PyStr.lstrip]. rewrite Hc. auto. }
  now rewrite Hl.
Qed.

(** ** C5: how high a tally can count *)

(** C5 (as the code has it). After the first pass, the header count and the
    footer count of every signature are at most three times the number of
    analysed pages: a page adds at most three counts to each tally, and all
    three may fall on one signature. *)
Theorem tally_at_most_three_per_page {Margin}
    (sort : list Block.t -> list Block.t)
    (raw_pages : list (RawPage.t Margin)) (s : string) :
  0 <= Counter.get (tally sort raw_pages).1 s <= 3 * Z.of_nat (length raw_pages) /\
  0 <= Counter.get (tally sort raw_pages).2 s <= 3 * Z.of_nat (length raw_pages).
Proof.
  destruct (tally_get sort raw_pages s) as [-> ->].
  pose proof (occurrences_le_length s (flat_map (page_head_keys sort) raw_pages)).
  pose proof (occurrences_le_length s (flat_map (page_tail_keys sort) raw_pages)).
  pose proof (flat_map_keys_length (page_head_keys sort) raw_pages
                (fun p => proj1 (page_keys_length sort p))).
  pose proof (flat_map_keys_length (page_tail_keys sort) raw_pages
                (fun p => proj2 (page_keys_length sort p))).
  lia.
Qed.

(** The claim as the specification words it fails on a page with two
    headings that differ only in their number: one page, a count of two. *)
Lemma tally_exceeds_page_count :
  let raw_pages := [Sample.two_headings] in
  let headers := (tally Collection.sort_in_reading_order raw_pages).1 in
  Counter.get headers "Chapter 1" = 2 /\
  ~ Counter.get headers "Chapter 1" <= Z.of_nat (length raw_pages).
Proof. vm_compute. split; [reflexivity|]. intros H. now apply H. Qed.

(** ** C10: a document of one page *)

(** C10. In a document of one page the threshold is 4 while each tally
    holds at most 3 counts in all, so no block is classified, and the page,
    when it has at least one block, receives the default boundaries: header
    0 and footer at the bottom edge of the page. Its blocks are left in
    reading order, as the sort of the first loop put them; the sort is asked
    to leave sorted blocks as they are and not to leave a page with blocks
    without any. *)
Theorem single_page_defaults {Margin}
    (sort : list Block.t -> list Block.t) (p : RawPage.t Margin) :
  let headers := (tally sort [p]).1 in
  let footers := (tally sort [p]).2 in
  threshold (Z.of_nat (length [p])) = 4 /\
  total headers <= 3 /\ total footers <= 3 /\
  classified sort headers footers 4 p = ([], []) /\
  (reading_order_sort sort -> RawPage.blocks p <> [] ->
   _parse_header_footer sort [p] =
     [RawPage.set_header_footer (sorted_in_place sort p)
        0 (getitem (RawPage.bbox p) 3)]).
Proof.
  intros headers footers.
  assert (Htot : total headers <= 3 /\ total footers <= 3).
  { subst headers footers. rewrite tally_spec. cbn [fst snd flat_map].
    rewrite !app_nil_r, !total_add_all, total_empty.
    destruct (page_keys_length sort p). lia. }
  assert (Hget : forall s, Counter.get headers s <= 4 /\ Counter.get footers s <= 4).
  { intros s. subst headers footers.
    destruct (tally_get sort [p] s) as [-> ->]. cbn [flat_map].
    rewrite !app_nil_r.
    pose proof (occurrences_le_length s (page_head_keys sort p)).
    pose proof (occurrences_le_length s (page_tail_keys sort p)).
    destruct (page_keys_length sort p). lia. }
  assert (Hcl : classified sort headers footers 4 p = ([], [])).
  { rewrite classified_spec.
    rewrite !filter_exceeds_low; [reflexivity | apply Hget | apply Hget]. }
  split; [reflexivity|]. split; [apply Htot|]. split; [apply Htot|].
  split; [exact Hcl|]. intros Hsort Hne.
  apply list_eq. intros [|k].
  - rewrite (detector_lookup sort Hsort [p] 0 p eq_refl).
    fold headers footers. change (threshold (Z.of_nat (length [p]))) with 4.
    cbv zeta. rewrite Hcl.
    destruct (RawPage.blocks p); [congruence|reflexivity].
  - rewrite parse_header_footer_lookup. reflexivity.
Qed.

Lemma single_page_defaults_witness :
  reading_order_sort Collection.sort_in_reading_order /\
  RawPage.blocks Sample.two_headings <> [] /\
  _parse_header_footer Collection.sort_in_reading_order [Sample.two_headings] =
    [RawPage.set_header_footer Sample.two_headings 0 842].
Proof.
  assert (Hne : RawPage.blocks Sample.two_headings <> []) by discriminate.
  split; [exact sample_sort_is_sort|]. split; [exact Hne|].
  exact (proj2 (proj2 (proj2 (proj2
    (single_page_defaults Collection.sort_in_reading_order Sample.two_headings))))
    sample_sort_is_sort Hne).
Defined.

(** ** C1: classification and boundaries *)

(** C1 (as the code has it). For every document and every page of it that
    has at least one block: a block of the head window of the page (its
    first three blocks in reading order, at most) is classified header
    exactly when it has text and the header count of its signature strictly
    exceeds the threshold, and symmetrically for the tail window and footer;
    the header boundary of the page is then set to the greatest bottom-y of
    its header blocks, 0 when there is none, and its footer boundary to the
    least top-y of its footer blocks, the bottom edge of the page when
    there is none. The page is handed back with its blocks in reading
    order, the sort working in place. The sort is asked to leave sorted
    blocks as they are and not to leave a page with blocks without any. *)
Theorem classification_and_boundaries {Margin}
    (sort : list Block.t -> list Block.t)
    (raw_pages : list (RawPage.t Margin)) (k : nat) (p : RawPage.t Margin) :
  reading_order_sort sort ->
  raw_pages !! k = Some p ->
  RawPage.blocks p <> [] ->
  let headers := (tally sort raw_pages).1 in
  let footers := (tally sort raw_pages).2 in
  let t := threshold (Z.of_nat (length raw_pages)) in
  let blocks := sort (RawPage.blocks p) in
  exists header_blocks footer_blocks h f,
    classified sort headers footers t p = (header_blocks, footer_blocks) /\
    (forall b, In b header_blocks <->
       In b (head_window blocks) /\
       exists x, Block.text b = Some x /\
                 t < Counter.get headers (PyStr.signature x)) /\
    (forall b, In b footer_blocks <->
       In b (tail_window blocks) /\
       exists x, Block.text b = Some x /\
                 t < Counter.get footers (PyStr.signature x)) /\
    _parse_header_footer sort raw_pages !! k =
      Some (RawPage.set_header_footer (sorted_in_place sort p) h f) /\
    RawPage.blocks (sorted_in_place sort p) = blocks /\
    is_max_of (map bottom_y header_blocks) 0 h /\
    is_min_of (map top_y footer_blocks) (getitem (RawPage.bbox p) 3) f.
Proof.
  intros Hsort Hk Hne headers footers t blocks.
  pose proof (classified_spec sort headers footers t p) as Hcl. fold blocks in Hcl.
  eexists _, _, _, _. split; [exact Hcl|].
  split; [|split; [|split; [|split; [|split]]]].
  - intros b. rewrite filter_In, exceeds_true. reflexivity.
  - intros b. rewrite filter_In, exceeds_true. reflexivity.
  - rewrite (detector_lookup sort Hsort raw_pages k p Hk).
    fold headers footers t. cbv zeta. rewrite Hcl. cbn [fst snd].
    destruct (RawPage.blocks p); [congruence|reflexivity].
  - now apply sorted_in_place_blocks.
  - apply py_max_spec.
  - apply py_min_spec.
Qed.

Lemma classification_and_boundaries_witness :
  let sort := Collection.sort_in_reading_order in
  let p := Sample.report_page "3" in
  reading_order_sort sort /\
  Sample.report !! 2%nat = Some p /\
  RawPage.blocks p <> [] /\
  exists header_blocks footer_blocks h f,
    classified sort (tally sort Sample.report).1 (tally sort Sample.report).2
      (threshold 5) p = (header_blocks, footer_blocks) /\
    _parse_header_footer sort Sample.report !! 2%nat =
      Some (RawPage.set_header_footer (sorted_in_place sort p) h f) /\
    is_max_of (map bottom_y header_blocks) 0 h /\
    is_min_of (map top_y footer_blocks) 842 f.
Proof.
  intros sort p.
  split; [exact sample_sort_is_sort|]. split; [reflexivity|].
  split; [discriminate|].
  destruct (classification_and_boundaries sort Sample.report 2 p
              sample_sort_is_sort eq_refl)
    as (hb & fb & h & f & Hcl & _ & _ & Hres & _ & Hmax & Hmin); [discriminate|].
  exists hb, fb, h, f.
  split; [exact Hcl|]. split; [exact Hres|]. split; [exact Hmax|exact Hmin].
Defined.

(** On the third page of the report the running title is the header block
    and the page number the footer block, and the page comes back with its
    blocks in reading order. *)
Example report_page_is_classified :
  let sort := Collection.sort_in_reading_order in
  _parse_header_footer sort Sample.report !! 2%nat =
    Some (RawPage.mk "Annual report 3" 595 842
            {| x0 := 0; y0 := 0; x1 := 595; y1 := 842 |}
            [ Sample.block 30 45 (Some " Annual report 2026 ");
              Sample.block 100 200 None; Sample.block 300 400 None;
              Sample.block 450 550 None; Sample.block 600 700 None;
              Sample.block 800 815 (Some "Page 3 of 5") ]
            (Some 45) (Some 800) None).
Proof. vm_compute. reflexivity. Qed.

(** The claim as the specification words it fails on a page without
    blocks: the second loop leaves it before the two assignments, so its
    header boundary is not set to 0. *)
Lemma blank_page_boundary_not_set :
  let raw_pages := [Sample.pictures; Sample.blank] in
  exists p, _parse_header_footer Collection.sort_in_reading_order raw_pages !! 1%nat
            = Some p /\
    RawPage.header p = None /\
    RawPage.header p <> Some (py_max [] 0).
Proof. exists Sample.blank. vm_compute. repeat split. discriminate. Qed.

(** ** C6: pages that contribute nothing *)

(** C6 (as the code has it). A page that contributes no qualifying block
    adds nothing to either tally, whatever the other pages hold. When it
    has blocks (none of them with text in a window) the detector gives it
    the default boundaries, header 0 and footer at the bottom edge of the
    page, and leaves its blocks in reading order; when it has no block at
    all the detector leaves it as it was. For the boundaries the sort is
    asked to leave sorted blocks as they are and not to leave a page with
    blocks without any. *)
Theorem page_without_candidates {Margin}
    (sort : list Block.t -> list Block.t)
    (before after : list (RawPage.t Margin)) (p : RawPage.t Margin) :
  no_qualifying_blocks sort p ->
  tally sort (before ++ p :: after) = tally sort (before ++ after) /\
  (reading_order_sort sort ->
   _parse_header_footer sort (before ++ p :: after) !! length before =
     Some match RawPage.blocks p with
          | [] => p
          | _ => RawPage.set_header_footer (sorted_in_place sort p)
                   0 (getitem (RawPage.bbox p) 3)
          end).
Proof.
  intros Hp. destruct (no_qualifying_no_keys sort p Hp) as [Hh Ht]. split.
  - rewrite !tally_spec, !flat_map_middle by assumption. reflexivity.
  - intros Hsort.
    rewrite (detector_lookup sort Hsort (before ++ p :: after) (length before) p
               (list_lookup_middle before after p (length before) eq_refl)).
    f_equal. destruct (RawPage.blocks p) as [|b bs] eqn:Hb; [reflexivity|].
    cbv zeta. rewrite classified_spec, Hb. cbn [fst snd].
    destruct Hp as [He|Hw]; [congruence|]. rewrite Hb in Hw.
    rewrite !filter_exceeds_nil; [reflexivity | |]; intros b' Hb'; apply Hw; auto.
Qed.

Lemma page_without_candidates_witness :
  let sort := Collection.sort_in_reading_order in
  no_qualifying_blocks sort Sample.pictures /\
  no_qualifying_blocks sort Sample.blank /\
  _parse_header_footer sort
    (Sample.report ++ Sample.pictures :: [Sample.one_line]) !! 5%nat =
    Some (RawPage.set_header_footer Sample.pictures 0 842) /\
  _parse_header_footer sort
    (Sample.report ++ Sample.blank :: [Sample.one_line]) !! 5%nat =
    Some Sample.blank.
Proof.
  intros sort.
  assert (H1 : no_qualifying_blocks sort Sample.pictures).
  { right. vm_compute. intros b [[<-|[<-|[]]]|[<-|[<-|[]]]]; reflexivity. }
  assert (H2 : no_qualifying_blocks sort Sample.blank).
  { left. reflexivity. }
  split; [exact H1|]. split; [exact H2|]. split.
  - exact (proj2 (page_without_candidates sort
                    Sample.report [Sample.one_line] Sample.pictures H1)
             sample_sort_is_sort).
  - exact (proj2 (page_without_candidates sort
                    Sample.report [Sample.one_line] Sample.blank H2)
             sample_sort_is_sort).
Defined.

(** The claim as the specification words it fails on a page with zero
    blocks: after the detector has run, the page has no boundaries. *)
Lemma blank_page_keeps_no_boundaries :
  let raw_pages := Sample.report ++ [Sample.blank] in
  exists p, _parse_header_footer Collection.sort_in_reading_order raw_pages !! 5%nat
            = Some p /\
    RawPage.blocks p = [] /\
    ~ (RawPage.header p = Some 0 /\
       RawPage.footer p = Some (getitem (RawPage.bbox p) 3)).
Proof.
  exists Sample.blank. vm_compute. repeat split. intros [H _]. discriminate H.
Qed.

(** ** C4: blocks without text *)

(** C4 (as the code has it). A block of a window whose text is null takes
    part in neither pass: each tally counts the signatures of the window
    blocks that have text and nothing else, and every classified block has
    text. Every window block that has text does take part, a text of
    whitespace only included: the block is tallied under its signature,
    which for whitespace is the empty string, and it is classified exactly
    when the count of that signature exceeds the threshold. *)
Theorem null_text_takes_no_part {Margin}
    (sort : list Block.t -> list Block.t)
    (raw_pages : list (RawPage.t Margin)) :
  let headers := (tally sort raw_pages).1 in
  let footers := (tally sort raw_pages).2 in
  let t := threshold (Z.of_nat (length raw_pages)) in
  (forall s,
     Counter.get headers s =
       occurrences s (flat_map (page_head_keys sort) raw_pages) /\
     Counter.get footers s =
       occurrences s (flat_map (page_tail_keys sort) raw_pages)) /\
  (forall (p : RawPage.t Margin) b,
     In b (classified sort headers footers t p).1 \/
     In b (classified sort headers footers t p).2 ->
     Block.text b <> None) /\
  (forall (p : RawPage.t Margin) b x,
     In p raw_pages -> RawPage.blocks p <> [] ->
     Block.text b = Some x ->
     (In b (head_window (sort (RawPage.blocks p))) ->
      1 <= Counter.get headers (PyStr.signature x) /\
      (In b (classified sort headers footers t p).1 <->
       t < Counter.get headers (PyStr.signature x))) /\
     (In b (tail_window (sort (RawPage.blocks p))) ->
      1 <= Counter.get footers (PyStr.signature x) /\
      (In b (classified sort headers footers t p).2 <->
       t < Counter.get footers (PyStr.signature x)))) /\
  (forall x, all_spaces x = true -> PyStr.signature x = EmptyString).
Proof.
  intros headers footers t. split; [|split; [|split]].
  - intros s. apply tally_get.
  - intros p b. rewrite classified_spec. cbn [fst snd].
    rewrite !filter_In, !exceeds_true.
    intros [(_ & x & Hx & _)|(_ & x & Hx & _)]; congruence.
  - intros p b x Hp Hne Hx.
    assert (Hcl : forall c w, In b w ->
              (In b (List.filter (exceeds c t) w) <->
               t < Counter.get c (PyStr.signature x))).
    { intros c w Hb. rewrite filter_In, exceeds_true. split.
      - intros (_ & x' & Hx' & Ht). rewrite Hx in Hx'. now injection Hx' as <-.
      - intros Ht. split; [assumption|]. now exists x. }
    rewrite classified_spec. cbn [fst snd].
    split; intros Hb; (split; [|now apply Hcl]).
    + subst headers. rewrite (proj1 (tally_get sort raw_pages _)).
      apply occurrences_pos, in_flat_map. exists p. split; [assumption|].
      unfold page_head_keys.
      destruct (RawPage.blocks p) as [|b0 bs] eqn:Hbs; [congruence|].
      now apply window_keys_In with b.
    + subst footers. rewrite (proj2 (tally_get sort raw_pages _)).
      apply occurrences_pos, in_flat_map. exists p. split; [assumption|].
      unfold page_tail_keys.
      destruct (RawPage.blocks p) as [|b0 bs] eqn:Hbs; [congruence|].
      now apply window_keys_In with b.
  - apply signature_spaces.
Qed.

Lemma null_text_takes_no_part_witness :
  Block.text (Sample.block 100 200 None) = None /\
  ~ In (Sample.block 100 200 None)
       (classified Collection.sort_in_reading_order
          (tally Collection.sort_in_reading_order Sample.report).1
          (tally Collection.sort_in_reading_order Sample.report).2
          (threshold 5) (Sample.report_page "1")).1.
Proof.
  split; [reflexivity|]. intros Hin.
  destruct (null_text_takes_no_part Collection.sort_in_reading_order Sample.report)
    as (_ & Htext & _).
  apply (Htext (Sample.report_page "1") (Sample.block 100 200 None));
    [left; exact Hin | reflexivity].
Defined.

(** The claim as the specification words it fails on five pages whose only
    block holds two spaces: the block is tallied, under the empty signature,
    and classified header (and footer) on every page. *)
Lemma whitespace_block_is_classified :
  let sort := Collection.sort_in_reading_order in
  let raw_pages := replicate 5 Sample.spaces_only in
  let headers := (tally sort raw_pages).1 in
  let footers := (tally sort raw_pages).2 in
  let b := Sample.block 10 20 (Some "  ") in
  Block.text b = Some "  " /\ PyStr.strip "  " = EmptyString /\
  Counter.get headers EmptyString = 5 /\
  In b (classified sort headers footers (threshold 5) Sample.spaces_only).1 /\
  _parse_header_footer sort raw_pages !! 0%nat =
    Some (RawPage.set_header_footer Sample.spaces_only 20 10).
Proof. vm_compute. repeat split. now left. Qed.

(** ** C3: the order of the two boundaries *)

(** C3 (as the code has it). On a page with at least one block, whenever
    the two boundaries the detector sets both differ from their defaults
    (header > 0 and footer < bottom edge of the page), the header boundary
    is at most the footer boundary exactly when every header block of the
    page ends above the start of every footer block of the page: the
    bottom-y of the one is at most the top-y of the other. That is so, in
    particular, when each of the first three blocks of the page in reading
    order ends above the start of each of its last three. The sort is asked
    to leave sorted blocks as they are and not to leave a page with blocks
    without any. *)
Theorem boundaries_ordered_iff {Margin}
    (sort : list Block.t -> list Block.t)
    (raw_pages : list (RawPage.t Margin)) (k : nat) (p p' : RawPage.t Margin) :
  reading_order_sort sort ->
  raw_pages !! k = Some p ->
  _parse_header_footer sort raw_pages !! k = Some p' ->
  RawPage.blocks p <> [] ->
  let headers := (tally sort raw_pages).1 in
  let footers := (tally sort raw_pages).2 in
  let t := threshold (Z.of_nat (length raw_pages)) in
  let cl := classified sort headers footers t p in
  let blocks := sort (RawPage.blocks p) in
  (forall h f,
     RawPage.header p' = Some h -> RawPage.footer p' = Some f ->
     0 < h -> f < getitem (RawPage.bbox p') 3 ->
     (h <= f <->
      forall a b, In a cl.1 -> In b cl.2 -> bottom_y a <= top_y b)) /\
  ((forall a b, In a (head_window blocks) -> In b (tail_window blocks) ->
      bottom_y a <= top_y b) ->
   boundaries_ordered p').
Proof.
  intros Hsort Hk Hres Hne headers footers t cl blocks.
  rewrite (detector_lookup sort Hsort raw_pages k p Hk) in Hres.
  fold headers footers t in Hres. cbv zeta in Hres. fold cl in Hres.
  destruct (RawPage.blocks p) as [|b0 bs0] eqn:Hb; [congruence|].
  assert (Hp' : p' = RawPage.set_header_footer (sorted_in_place sort p)
                       (py_max (map bottom_y cl.1) 0)
                       (py_min (map top_y cl.2) (getitem (RawPage.bbox p) 3)))
    by congruence.
  clear Hres. subst p'.
  assert (Hiff : forall h f,
    RawPage.header (RawPage.set_header_footer (sorted_in_place sort p)
       (py_max (map bottom_y cl.1) 0)
       (py_min (map top_y cl.2) (getitem (RawPage.bbox p) 3))) = Some h ->
    RawPage.footer (RawPage.set_header_footer (sorted_in_place sort p)
       (py_max (map bottom_y cl.1) 0)
       (py_min (map top_y cl.2) (getitem (RawPage.bbox p) 3))) = Some f ->
    0 < h ->
    f < getitem (RawPage.bbox (RawPage.set_header_footer (sorted_in_place sort p)
       (py_max (map bottom_y cl.1) 0)
       (py_min (map top_y cl.2) (getitem (RawPage.bbox p) 3)))) 3 ->
    (h <= f <-> forall a b, In a cl.1 -> In b cl.2 -> bottom_y a <= top_y b)).
  { clearbody cl.
    set (top := py_max (map bottom_y cl.1) 0).
    set (bottom := py_min (map top_y cl.2) (getitem (RawPage.bbox p) 3)).
    intros h f Hh Hf Hpos Hlow.
    change (Some top = Some h) in Hh. change (Some bottom = Some f) in Hf.
    change (f < getitem (RawPage.bbox (sorted_in_place sort p)) 3) in Hlow.
    rewrite sorted_in_place_bbox in Hlow.
    assert (Hh' : h = top) by congruence.
    assert (Hf' : f = bottom) by congruence.
    clear Hh Hf. subst h f top bottom. split.
    - intros Hle a b Ha Hb'.
      pose proof (py_max_ge bottom_y cl.1 0 a Ha).
      pose proof (py_min_le top_y cl.2 (getitem (RawPage.bbox p) 3) b Hb'). lia.
    - intros Hall.
      apply py_max_pos in Hpos as (a & Ha & ->).
      apply py_min_below in Hlow as (b & Hb' & ->). now apply Hall. }
  split; [exact Hiff|].
  intros Hwin h f Hh Hf Hpos Hlow. apply (Hiff h f Hh Hf Hpos Hlow).
  intros a b Ha Hb'. subst cl. rewrite classified_spec in Ha, Hb'.
  cbn [fst snd] in Ha, Hb'. rewrite Hb in Ha, Hb'.
  apply filter_In in Ha as [Ha _]. apply filter_In in Hb' as [Hb' _].
  now apply Hwin.
Qed.

Lemma boundaries_ordered_iff_witness :
  let sort := Collection.sort_in_reading_order in
  let p := Sample.two_part_page "3" in
  reading_order_sort sort /\
  Sample.two_part_report !! 2%nat = Some p /\
  RawPage.blocks p <> [] /\
  _parse_header_footer sort Sample.two_part_report !! 2%nat =
    Some (RawPage.set_header_footer (sorted_in_place sort p) 45 800) /\
  (45 <= 800 <->
   forall a b,
     In a [Sample.block_at 72 300 30 45 (Some "Minutes of the board");
           Sample.block_at 310 523 30 45 (Some "March 2026")] ->
     In b [Sample.block 800 815 (Some "Page 3")] -> bottom_y a <= top_y b).
Proof.
  intros sort p.
  assert (Hne : RawPage.blocks p <> []) by discriminate.
  split; [exact sample_sort_is_sort|]. split; [reflexivity|].
  split; [exact Hne|]. split; [reflexivity|].
  exact (proj1 (boundaries_ordered_iff sort Sample.two_part_report 2 p
                  (RawPage.set_header_footer (sorted_in_place sort p) 45 800)
                  sample_sort_is_sort eq_refl eq_refl Hne)
           45 800 eq_refl eq_refl eq_refl eq_refl).
Defined.

(** The claim as the specification words it fails on five pages that hold
    the same single line: the line is header block and footer block at once,
    so the header boundary is its bottom and the footer boundary its top. *)
Lemma boundaries_cross_on_short_pages :
  let raw_pages := replicate 5 Sample.one_line in
  exists p,
    In p (_parse_header_footer Collection.sort_in_reading_order raw_pages) /\
    RawPage.header p = Some 20 /\ RawPage.footer p = Some 10 /\
    ~ boundaries_ordered p.
Proof.
  exists (RawPage.set_header_footer Sample.one_line 20 10).
  split; [vm_compute; now left|]. split; [reflexivity|]. split; [reflexivity|].
  intros H. specialize (H 20 10 eq_refl eq_refl). vm_compute in H.
  specialize (H eq_refl eq_refl). now apply H.
Qed.

(** ** C8: the warning *)

(** A text is true after stripping exactly when it holds a character that
    is not whitespace. *)
Lemma truthy_strip s : PyStr.truthy (PyStr.strip s) = negb (blank s).
Proof.
  destruct (blank s) eqn:Hb.
  - apply strip_empty_iff in Hb. now rewrite Hb.
  - destruct (PyStr.strip s) eqn:Hs; [|reflexivity].
    apply strip_empty_iff in Hs. congruence.
Qed.

(** C8. A run of [parse] logs exactly one warning when no analysed page
    yields text that is not whitespace (the text it yields is blank: every
    character of it is one of [whitespace]), and logs nothing when some
    analysed page does; with or without the warning the run goes on through
    the detector and the last loop, so that every analysed page has its
    width and its margin in the end. *)
Theorem warning_iff_no_words
    {Document Settings Fonts Margin Section_ Image : Type}
    (C : Collaborators Document Settings Fonts Margin Section_ Image)
    (fitz_doc : Document) (settings : Settings)
    (l : list (Page.t Margin Section_ Image)) :
  let run := parse C l fitz_doc settings in
  (run.2 = [no_words_warning] \/ run.2 = []) /\
  (run.2 = [no_words_warning] <->
   forall p, In p l -> Page.skip_parsing p = false ->
     blank (RawPage.raw_text (extracted C fitz_doc settings p)) = true) /\
  (run.2 = [] <->
   exists p, In p l /\ Page.skip_parsing p = false /\
     blank (RawPage.raw_text (extracted C fitz_doc settings p)) = false) /\
  length run.1 = length l /\
  (forall i p, l !! i = Some p -> Page.skip_parsing p = false ->
     exists p' m, run.1 !! i = Some p' /\ Page.margin p' = Some m /\
       Page.width p' = Some (RawPage.width (prepared C fitz_doc settings p))).
Proof.
  intros run.
  assert (Hlog : run.2 = if existsb (yields_text C fitz_doc settings) (analysed l)
                         then [] else [no_words_warning])
    by (subst run; now rewrite parse_spec).
  assert (Hex : existsb (yields_text C fitz_doc settings) (analysed l) = true <->
                exists p, In p l /\ Page.skip_parsing p = false /\
                  blank (RawPage.raw_text (extracted C fitz_doc settings p)) = false).
  { rewrite existsb_exists. unfold analysed, analysed_page, yields_text.
    split; intros (p & Hp & Hy); exists p.
    - apply filter_In in Hp as [Hin Hs]. apply negb_true_iff in Hs.
      rewrite truthy_strip in Hy. apply negb_true_iff in Hy. easy.
    - destruct Hy as [Hs Hy]. split.
      + apply filter_In. split; [assumption|]. now apply negb_true_iff.
      + rewrite truthy_strip. now apply negb_true_iff. }
  assert (Hlen : length run.1 = length l).
  { subst run. rewrite parse_spec. cbn [fst]. now rewrite laid_out_length, length_map. }
  assert (Hgo : forall i p, l !! i = Some p -> Page.skip_parsing p = false ->
     exists p' m, run.1 !! i = Some p' /\ Page.margin p' = Some m /\
       Page.width p' = Some (RawPage.width (prepared C fitz_doc settings p))).
  { intros i p Hi Hs. subst run.
    rewrite (parse_lookup C fitz_doc settings l i p Hi), Hs.
    destruct (detected_lookup C fitz_doc settings l i p Hi Hs) as (rp & ->).
    eexists _, _. split; [reflexivity|]. unfold after_extraction. rewrite Hs.
    split; reflexivity. }
  destruct (existsb (yields_text C fitz_doc settings) (analysed l)) eqn:Hwords;
    rewrite Hlog.
  - split; [now right|]. split; [|split; [|split; assumption]].
    + split; [discriminate|]. intros Hall.
      destruct (proj1 Hex eq_refl) as (p & Hin & Hs & Hy).
      specialize (Hall p Hin Hs). congruence.
    + split; [intros _; now apply Hex | reflexivity].
  - split; [now left|]. split; [|split; [|split; assumption]].
    + split; [|reflexivity]. intros _ p Hin Hs.
      destruct (blank _) eqn:Hblank; [reflexivity|exfalso].
      assert (false = true) as Habs; [|discriminate Habs].
      apply Hex. exists p. easy.
    + split; [discriminate|]. intros Hsome. apply Hex in Hsome. discriminate.
Qed.

Lemma warning_iff_no_words_witness :
  RawPage.raw_text (extracted Toy.collaborators Toy.scan tt (Toy.new_page 0 false)) =
    String "009" "  " /\
  (parse Toy.collaborators Toy.scan_pages Toy.scan tt).2 = [no_words_warning] /\
  exists p' m,
    (parse Toy.collaborators Toy.scan_pages Toy.scan tt).1 !! 1%nat = Some p' /\
    Page.margin p' = Some m.
Proof.
  destruct (warning_iff_no_words Toy.collaborators Toy.scan tt Toy.scan_pages)
    as (_ & Hwarn & _ & _ & Hgo).
  split; [reflexivity|]. split.
  - apply Hwarn. intros p [<-|[<-|[]]] _; reflexivity.
  - destruct (Hgo 1%nat (Toy.new_page 1 false) eq_refl eq_refl)
      as (p' & m & Hp' & Hm & _).
    exists p', m. split; assumption.
Defined.

(** A scan is warned about once, and its pages are laid out all the same;
    the report is not warned about. *)
Example scan_is_warned_about :
  parse Toy.collaborators Toy.scan_pages Toy.scan tt =
  ([Page.mk 0 false (Some 595) (Some 842) (Some (0, 842)) []
      [Sample.block 100 200 None; Sample.block 300 400 None];
    Page.mk 1 false (Some 595) (Some 842) (Some (0, 842)) []
      [Sample.block 100 200 None; Sample.block 300 400 None]],
   [no_words_warning]).
Proof. vm_compute. reflexivity. Qed.

Example report_is_not_warned_about :
  (parse Toy.collaborators Toy.report_pages Sample.report tt).2 = [].
Proof. vm_compute. reflexivity. Qed.

(** ** C9: what [parse] writes and what it leaves *)

(** C9. [parse] writes width, height, margin, sections and floating images
    of every page that is not skipped: width, height and floating images
    from its raw page as the first loop prepared it, margin and sections
    from the raw page as the detector hands it back (the prepared raw page,
    its blocks put in reading order and its boundaries set by the two loops
    of the detector over the raw pages of all analysed pages); the sections
    are added after those the page had, and sections and floating images
    that are false are not taken up. A page whose skip flag is set is left
    exactly as it was, and the collection keeps its length. *)
Theorem parse_writes_and_leaves
    {Document Settings Fonts Margin Section_ Image : Type}
    (C : Collaborators Document Settings Fonts Margin Section_ Image)
    (fitz_doc : Document) (settings : Settings)
    (l : list (Page.t Margin Section_ Image)) (i : nat)
    (p : Page.t Margin Section_ Image) :
  l !! i = Some p ->
  let after := (parse C l fitz_doc settings).1 in
  length after = length l /\
  (Page.skip_parsing p = true -> after !! i = Some p) /\
  (Page.skip_parsing p = false ->
   let sort := sort_in_reading_order C in
   let raws := map (prepared C fitz_doc settings) (analysed l) in
   let raw := prepared C fitz_doc settings p in
   let rp := classify_page sort (tally sort raws).1 (tally sort raws).2
               (threshold (Z.of_nat (length raws)))
               (sorted_in_place sort raw) in
   let m := calculate_margin C settings rp in
   detected C fitz_doc settings l !! rank l i = Some rp /\
   after !! i =
   Some (Page.mk (Page.id p) false
           (Some (RawPage.width raw)) (Some (RawPage.height raw))
           (Some m)
           (Page.sections p ++
            List.filter (section_truth C)
              (parse_section C settings (RawPage.set_margin rp m)))
           (List.filter (image_truth C)
              (floating_image_blocks C (RawPage.blocks raw))))).
Proof.
  intros Hi after. split; [|split].
  - subst after. rewrite parse_spec. cbn [fst]. now rewrite laid_out_length, length_map.
  - intros Hs. subst after. now rewrite (parse_lookup C fitz_doc settings l i p Hi), Hs.
  - intros Hs sort raws raw rp m.
    pose proof (detected_lookup_page C fitz_doc settings l i p Hi Hs) as Hrp.
    cbv zeta in Hrp. fold sort raws raw rp in Hrp.
    split; [exact Hrp|]. subst after.
    rewrite (parse_lookup C fitz_doc settings l i p Hi), Hs, Hrp.
    unfold with_layout, after_extraction, Page.set_layout, Page.set_basic, extend.
    rewrite Hs. cbn. reflexivity.
Qed.

Lemma parse_writes_and_leaves_witness :
  let after := (parse Toy.collaborators Toy.report_pages Sample.report tt).1 in
  Toy.report_pages !! 3%nat = Some (Toy.new_page 5 true) /\
  after !! 3%nat = Some (Toy.new_page 5 true) /\
  Toy.report_pages !! 4%nat = Some (Toy.new_page 3 false) /\
  after !! 4%nat =
    Some (Page.mk 3 false (Some 595) (Some 842) (Some (45, 800))
            [" Annual report 2026 "; "Page 4 of 5"]
            [Sample.block 600 700 None; Sample.block 450 550 None;
             Sample.block 300 400 None; Sample.block 100 200 None]).
Proof.
  intros after.
  destruct (parse_writes_and_leaves Toy.collaborators Sample.report tt
              Toy.report_pages 3 (Toy.new_page 5 true) eq_refl)
    as (_ & Hskip & _).
  destruct (parse_writes_and_leaves Toy.collaborators Sample.report tt
              Toy.report_pages 4 (Toy.new_page 3 false) eq_refl)
    as (_ & _ & Hkeep).
  split; [reflexivity|]. split; [exact (Hskip eq_refl)|]. split; [reflexivity|].
  exact (proj2 (Hkeep eq_refl)).
Defined.

(* ===================================================================== *)
(** * Further properties of the code                                     *)
(* ===================================================================== *)

(** X1. The signature of a text is in normal form: it neither starts nor
    ends with whitespace, every digit in it is the digit 1, no digit follows
    a digit, and taking the signature of a signature changes nothing. *)
Theorem signature_normal_form (text : string) :
  trimmed (PyStr.signature text) /\
  digits_canonical_from false (PyStr.signature text) = true /\
  PyStr.signature (PyStr.signature text) = PyStr.signature text.
Proof.
  split; [apply signature_trimmed|]. split; [apply sub_digits_from_canonical|].
  unfold PyStr.signature at 1.
  rewrite (strip_trimmed _ (signature_trimmed text)).
  apply sub_digits_from_fixed, sub_digits_from_canonical.
Qed.

(** ** The threshold against the number of pages *)

Lemma threshold_lt_pages n : 5 <= n < 2 ^ 50 -> threshold n < n.
Proof.
  intros Hn. rewrite threshold_is_rule by lia. unfold threshold_rule.
  pose proof (Z.mul_div_le (4 * n) 10 ltac:(lia)) as Hle.
  destruct (Z.eqb_spec n 2), (Z.eqb_spec n 3), (Z.ltb_spec 10 n); cbn [orb]; lia.
Qed.

(** X2. A signature counted once on every page is above the threshold
    exactly when the document has five pages or more: the threshold is
    below the number of pages from five pages on, and not before. It is
    never below 2, so nothing is classified on fewer than three counts. *)
Theorem threshold_below_page_count (n : Z) :
  0 <= n < 2 ^ 50 -> (threshold n < n <-> 5 <= n) /\ 2 <= threshold n.
Proof.
  intros Hn. split.
  - split; [|intros H5; apply threshold_lt_pages; lia].
    intros Hlt. destruct (Z.le_gt_cases 5 n) as [|Hsmall]; [assumption|exfalso].
    assert (Hcases : n = 0 \/ n = 1 \/ n = 2 \/ n = 3 \/ n = 4) by lia.
    destruct Hcases as [->|[->|[->|[->| ->]]]]; vm_compute in Hlt; discriminate Hlt.
  - rewrite threshold_is_rule by assumption. unfold threshold_rule.
    pose proof (Z.mul_succ_div_gt (4 * n) 10 ltac:(lia)) as Hgt.
    destruct (Z.eqb_spec n 2), (Z.eqb_spec n 3), (Z.ltb_spec 10 n); cbn [orb]; lia.
Qed.

Lemma threshold_below_page_count_witness :
  0 <= 5 < 2 ^ 50 /\ threshold 5 < 5 /\ ~ threshold 4 < 4.
Proof.
  assert (H5 : 0 <= 5 < 2 ^ 50) by (split; [discriminate | reflexivity]).
  assert (H4 : 0 <= 4 < 2 ^ 50) by (split; [discriminate | reflexivity]).
  split; [exact H5|]. split.
  - apply (proj2 (proj1 (threshold_below_page_count 5 H5))). discriminate.
  - intros H. apply (proj1 (proj1 (threshold_below_page_count 4 H4))) in H.
    apply H. reflexivity.
Defined.

(** ** The detector as a function of the document *)

Section DetectorExtras.

Context {Margin : Type}.
Variable sort : list Block.t -> list Block.t.

Implicit Types (p q : RawPage.t Margin) (ps qs : list (RawPage.t Margin)).

Lemma parse_header_footer_map ps :
  _parse_header_footer sort ps =
  map (classify_page sort (tally sort ps).1 (tally sort ps).2
         (threshold (Z.of_nat (length ps))))
    (map (sorted_in_place sort) ps).
Proof. unfold _parse_header_footer. now destruct (tally sort ps). Qed.

Section Twice.

Hypothesis Hsort : reading_order_sort sort.

Lemma both_loops_kept headers footers t p :
  kept_by_detector sort p
    (classify_page sort headers footers t (sorted_in_place sort p)).
Proof.
  rewrite (both_loops_page sort Hsort). unfold kept_by_detector.
  destruct (RawPage.blocks p) as [|b bs] eqn:Hb.
  - rewrite (sorted_in_place_empty sort p Hb). easy.
  - unfold sorted_in_place. rewrite Hb. easy.
Qed.

Lemma page_keys_kept p q :
  kept_by_detector sort p q ->
  page_head_keys sort q = page_head_keys sort p /\
  page_tail_keys sort q = page_tail_keys sort p.
Proof.
  intros (_ & _ & _ & _ & Hq & _). unfold page_head_keys, page_tail_keys.
  rewrite Hq. destruct (RawPage.blocks p) as [|b bs] eqn:Hb.
  - now rewrite (sorted_in_place_empty sort p Hb), Hb.
  - rewrite sorted_in_place_blocks by congruence. rewrite Hb.
    destruct (sort (b :: bs)) as [|c cs] eqn:Hs.
    + now apply (proj2 Hsort) in Hs.
    + now rewrite <- Hs, (proj1 Hsort).
Qed.

Lemma tally_kept ps qs :
  Forall2 (kept_by_detector sort) ps qs -> tally sort qs = tally sort ps.
Proof.
  intros H. rewrite !tally_spec.
  assert (flat_map (page_head_keys sort) qs = flat_map (page_head_keys sort) ps /\
          flat_map (page_tail_keys sort) qs = flat_map (page_tail_keys sort) ps)
    as [-> ->]; [|reflexivity].
  induction H as [|p q ps qs Hpq _ [IH1 IH2]]; [easy|].
  cbn [flat_map]. destruct (page_keys_kept p q Hpq) as [-> ->].
  now rewrite IH1, IH2.
Qed.

Lemma both_loops_twice headers footers t p :
  let run q := classify_page sort headers footers t (sorted_in_place sort q) in
  run (run p) = run p.
Proof.
  cbv beta zeta. rewrite (both_loops_page sort Hsort headers footers t p).
  destruct (RawPage.blocks p) as [|b bs] eqn:Hb.
  - rewrite (both_loops_page sort Hsort). now rewrite Hb.
  - rewrite (both_loops_page sort Hsort).
    set (sp := sorted_in_place sort p).
    assert (Hsp : RawPage.blocks sp = sort (b :: bs))
      by (subst sp; rewrite sorted_in_place_blocks by congruence; now rewrite Hb).
    assert (Hne : sort (b :: bs) <> []).
    { intros He. now apply (proj2 Hsort) in He. }
    assert (Hcl : forall h f,
      classified sort headers footers t (RawPage.set_header_footer sp h f) =
      classified sort headers footers t p).
    { intros h f. rewrite !classified_spec.
      cbn [RawPage.set_header_footer RawPage.blocks].
      now rewrite Hsp, Hb, (proj1 Hsort). }
    assert (Hfix : forall h f,
      sorted_in_place sort (RawPage.set_header_footer sp h f) =
      RawPage.set_header_footer sp h f).
    { intros h f. unfold sorted_in_place at 1.
      cbn [RawPage.set_header_footer RawPage.blocks]. rewrite Hsp.
      destruct (sort (b :: bs)) as [|c cs] eqn:Hs; [congruence|].
      rewrite <- Hs, (proj1 Hsort).
      clearbody sp. destruct sp. cbn in *. rewrite Hs. now subst. }
    assert (Hbl : forall h f,
      RawPage.blocks (RawPage.set_header_footer sp h f) = sort (b :: bs))
      by (intros h f; exact Hsp).
    assert (Hbox : forall h f,
      RawPage.bbox (RawPage.set_header_footer sp h f) = RawPage.bbox p)
      by (intros h f; subst sp; apply sorted_in_place_bbox).
    rewrite Hcl, Hfix, Hbl, Hbox.
    destruct (sort (b :: bs)) as [|c cs] eqn:Hs; [congruence|].
    reflexivity.
Qed.

Lemma parse_header_footer_kept ps :
  Forall2 (kept_by_detector sort) ps (_parse_header_footer sort ps).
Proof.
  rewrite parse_header_footer_map.
  generalize (tally sort ps).1, (tally sort ps).2, (threshold (Z.of_nat (length ps))).
  intros h f t. induction ps as [|p ps IH]; cbn [map]; constructor;
    [apply both_loops_kept | exact IH].
Qed.

End Twice.

(** X3. The detector writes boundaries and puts the blocks in reading
    order, and nothing else: every page keeps its text, size, box and
    margin, and holds its blocks as the sort in place left them; the
    document keeps its length, and a second run over the pages of a first
    run returns them as they are. The sort is asked to leave sorted blocks
    as they are and not to leave a page with blocks without any. *)
Theorem detector_idempotent ps :
  reading_order_sort sort ->
  Forall2 (kept_by_detector sort) ps (_parse_header_footer sort ps) /\
  length (_parse_header_footer sort ps) = length ps /\
  _parse_header_footer sort (_parse_header_footer sort ps) =
  _parse_header_footer sort ps.
Proof.
  intros Hsort. pose proof (parse_header_footer_kept Hsort ps) as Hkept.
  split; [exact Hkept|]. split; [symmetry; exact (Forall2_length _ _ _ Hkept)|].
  rewrite (parse_header_footer_map (_parse_header_footer sort ps)).
  rewrite (tally_kept Hsort _ _ Hkept).
  rewrite <- (Forall2_length _ _ _ Hkept).
  rewrite (parse_header_footer_map ps) at 1 2.
  rewrite !map_map. apply map_ext. intros p.
  apply (both_loops_twice Hsort).
Qed.

(** X4. Every block with text in a window is counted exactly once: the
    counts of a tally add up to the number of blocks with text in the
    windows of its kind over all pages, which is at most three per page. *)
Theorem tally_totals ps :
  total (tally sort ps).1 =
    Z.of_nat (length (flat_map (page_head_keys sort) ps)) /\
  total (tally sort ps).2 =
    Z.of_nat (length (flat_map (page_tail_keys sort) ps)) /\
  total (tally sort ps).1 <= 3 * Z.of_nat (length ps) /\
  total (tally sort ps).2 <= 3 * Z.of_nat (length ps).
Proof.
  rewrite tally_spec. cbn [fst snd]. rewrite !total_add_all, total_empty.
  pose proof (flat_map_keys_length (page_head_keys sort) ps
                (fun p => proj1 (page_keys_length sort p))).
  pose proof (flat_map_keys_length (page_tail_keys sort) ps
                (fun p => proj2 (page_keys_length sort p))).
  lia.
Qed.

(** *** The order of the pages *)

Lemma incr_comm (a b : string) (c : gmap string Z) :
  Counter.incr a (Counter.incr b c) = Counter.incr b (Counter.incr a c).
Proof.
  destruct (decide (a = b)) as [->|Hne]; [reflexivity|].
  unfold Counter.incr, Counter.get.
  rewrite !lookup_insert_ne by congruence.
  now apply insert_insert_ne.
Qed.

Lemma add_all_perm (k1 k2 : list string) :
  Permutation k1 k2 -> forall c : gmap string Z, add_all k1 c = add_all k2 c.
Proof.
  unfold add_all. induction 1 as [|x l l' _ IH|x y l|l l' l'' _ IH1 _ IH2];
    intros c; cbn [fold_left].
  - reflexivity.
  - apply IH.
  - now rewrite incr_comm.
  - now rewrite IH1.
Qed.

Lemma tally_perm ps qs : Permutation ps qs -> tally sort ps = tally sort qs.
Proof.
  intros H. rewrite !tally_spec. f_equal; apply add_all_perm;
    now apply Permutation_flat_map.
Qed.

(** X5. The order of the pages does not matter: both tallies of a document
    are those of any rearrangement of its pages, and every page, its blocks
    sorted, gets the boundaries it gets in the rearranged document. *)
Theorem page_order_irrelevant ps qs :
  Permutation ps qs ->
  tally sort ps = tally sort qs /\
  _parse_header_footer sort qs =
    map (classify_page sort (tally sort ps).1 (tally sort ps).2
           (threshold (Z.of_nat (length ps))))
      (map (sorted_in_place sort) qs) /\
  Permutation (_parse_header_footer sort ps) (_parse_header_footer sort qs).
Proof.
  intros H. pose proof (tally_perm ps qs H) as Ht.
  pose proof (Permutation_length H) as Hl.
  split; [exact Ht|]. split.
  - rewrite parse_header_footer_map. now rewrite Ht, Hl.
  - rewrite !parse_header_footer_map, <- Ht, <- Hl. now do 2 apply Permutation_map.
Qed.

(** *** Pages of at most three blocks *)

Lemma omap_perm {A B} (f : A -> option B) (l l' : list A) :
  Permutation l l' -> Permutation (omap f l) (omap f l').
Proof.
  induction 1 as [|x l l' _ IH|x y l|l l' l'' _ IH1 _ IH2]; cbn [omap list_omap].
  - constructor.
  - destruct (f x); [now constructor | exact IH].
  - destruct (f x), (f y); try reflexivity. apply perm_swap.
  - now transitivity (omap f l').
Qed.

Lemma In_reverse {A} (x : A) (l : list A) : In x (reverse l) <-> In x l.
Proof. rewrite <- !list_elem_of_In. apply elem_of_reverse. Qed.

Lemma small_page_windows (bs : list Block.t) :
  (length bs <= 3)%nat -> head_window bs = bs /\ tail_window bs = reverse bs.
Proof.
  intros Hl. unfold head_window, tail_window.
  rewrite !take_ge; [easy | rewrite length_reverse; lia | lia].
Qed.

Lemma small_page_keys p :
  (length (sort (RawPage.blocks p)) <= 3)%nat ->
  Permutation (page_tail_keys sort p) (page_head_keys sort p).
Proof.
  intros Hl. unfold page_tail_keys, page_head_keys.
  destruct (RawPage.blocks p) as [|b bs]; [reflexivity|].
  destruct (small_page_windows _ Hl) as [-> ->].
  apply omap_perm. apply reverse_Permutation.
Qed.

Lemma flat_map_perm {A B} (f g : A -> list B) (l : list A) :
  (forall x, In x l -> Permutation (f x) (g x)) ->
  Permutation (flat_map f l) (flat_map g l).
Proof.
  induction l as [|x l IH]; intros H; [reflexivity|]. cbn [flat_map].
  apply Permutation_app; [apply H; now left | apply IH].
  intros y Hy. apply H. now right.
Qed.

Lemma small_pages_tally ps :
  (forall p, In p ps -> (length (sort (RawPage.blocks p)) <= 3)%nat) ->
  (tally sort ps).1 = (tally sort ps).2.
Proof.
  intros H. rewrite tally_spec. cbn [fst snd]. symmetry.
  apply add_all_perm, flat_map_perm. intros p Hp. now apply small_page_keys, H.
Qed.

Lemma small_pages_header_is_footer_aux ps p :
  (forall q, In q ps -> (length (sort (RawPage.blocks q)) <= 3)%nat) ->
  In p ps ->
  let cl := classified sort (tally sort ps).1 (tally sort ps).2
              (threshold (Z.of_nat (length ps))) p in
  (forall b, In b cl.1 <-> In b cl.2) /\
  (forall b, In b cl.1 -> In b (sort (RawPage.blocks p))).
Proof.
  intros H Hp. pose proof (small_pages_tally ps H) as Ht.
  cbv zeta. rewrite classified_spec, <- Ht. cbn [fst snd].
  destruct (small_page_windows _ (H p Hp)) as [-> ->]. split; intros b.
  - rewrite !filter_In, In_reverse. reflexivity.
  - rewrite filter_In. tauto.
Qed.

(** X6. In a document whose pages have at most three blocks each, the two
    windows of a page hold the same blocks, so the header tally and the
    footer tally are the same counter and a block is classified header
    exactly when it is classified footer. *)
Theorem small_pages_header_is_footer ps :
  (forall p, In p ps -> (length (sort (RawPage.blocks p)) <= 3)%nat) ->
  (tally sort ps).1 = (tally sort ps).2 /\
  forall p b, In p ps ->
    let cl := classified sort (tally sort ps).1 (tally sort ps).2
                (threshold (Z.of_nat (length ps))) p in
    In b cl.1 <-> In b cl.2.
Proof.
  intros H. pose proof (small_pages_tally ps H) as Ht. split; [exact Ht|].
  intros p b Hp. cbv zeta. rewrite classified_spec, <- Ht. cbn [fst snd].
  destruct (small_page_windows _ (H p Hp)) as [-> ->].
  rewrite !filter_In, In_reverse. reflexivity.
Qed.

(** X7. On such a page the boundaries cross or touch as soon as a block is
    classified: when the blocks have their top at or above their bottom
    (top-y <= bottom-y), the footer boundary of the page is at most its
    header boundary. The sort is asked to leave sorted blocks as they are
    and not to leave a page with blocks without any. *)
Theorem small_pages_boundaries_cross ps k p :
  reading_order_sort sort ->
  (forall q, In q ps -> (length (sort (RawPage.blocks q)) <= 3)%nat) ->
  ps !! k = Some p ->
  RawPage.blocks p <> [] ->
  (forall b, In b (sort (RawPage.blocks p)) -> top_y b <= bottom_y b) ->
  (classified sort (tally sort ps).1 (tally sort ps).2
     (threshold (Z.of_nat (length ps))) p).1 <> [] ->
  exists h f,
    _parse_header_footer sort ps !! k =
      Some (RawPage.set_header_footer (sorted_in_place sort p) h f) /\
    f <= h.
Proof.
  intros Hsort Hsmall Hk Hne Hbox Hcl.
  assert (Hp : In p ps) by (apply list_elem_of_In, list_elem_of_lookup; eauto).
  destruct (small_pages_header_is_footer_aux ps p Hsmall Hp) as [Hsame Hsub].
  rewrite (detector_lookup sort Hsort ps k p Hk). cbv zeta in *.
  set (cl := classified sort _ _ _ p) in *.
  eexists _, _. split.
  { destruct (RawPage.blocks p); [congruence|reflexivity]. }
  destruct cl.1 as [|a hb] eqn:Hcl1; [congruence|].
  assert (Ha : In a (a :: hb)) by now left.
  pose proof (py_max_ge bottom_y (a :: hb) 0 a Ha) as Hmax.
  apply Hsame in Ha as Ha2.
  pose proof (py_min_le top_y cl.2 (getitem (RawPage.bbox p) 3) a Ha2) as Hmin.
  specialize (Hbox a (Hsub a Ha)). clearbody cl. lia.
Qed.

(** *** Windows without repeated signatures *)

Lemma occurrences_absent s (keys : list string) :
  ~ In s keys -> occurrences s keys = 0.
Proof.
  unfold occurrences. intros Hs.
  induction keys as [|k keys IH]; [reflexivity|]. cbn [List.filter].
  destruct (String.eqb_spec s k) as [->|Hne].
  - exfalso. apply Hs. now left.
  - apply IH. intros Hin. apply Hs. now right.
Qed.

Lemma occurrences_nodup s (keys : list string) :
  NoDup keys -> occurrences s keys <= 1.
Proof.
  induction 1 as [|k keys Hk _ IH].
  - unfold occurrences. cbn. lia.
  - change (k :: keys) with ([k] ++ keys). rewrite occurrences_app.
    unfold occurrences at 1. cbn [List.filter].
    destruct (String.eqb_spec s k) as [->|Hne]; cbn [length].
    + rewrite occurrences_absent; [lia|]. now rewrite <- list_elem_of_In.
    + lia.
Qed.

Lemma occurrences_flat_map_le {A} (f : A -> list string) s (l : list A) :
  (forall x, In x l -> occurrences s (f x) <= 1) ->
  occurrences s (flat_map f l) <= Z.of_nat (length l).
Proof.
  induction l as [|x l IH]; intros H; cbn [flat_map length].
  - unfold occurrences. cbn. lia.
  - rewrite occurrences_app. specialize (H x (or_introl eq_refl)) as Hx.
    assert (occurrences s (flat_map f l) <= Z.of_nat (length l)).
    { apply IH. intros y Hy. apply H. now right. }
    lia.
Qed.

Lemma occurrences_flat_map_ge {A} (f : A -> list string) s (l : list A) :
  (forall x, In x l -> 1 <= occurrences s (f x)) ->
  Z.of_nat (length l) <= occurrences s (flat_map f l).
Proof.
  induction l as [|x l IH]; intros H; cbn [flat_map length].
  - unfold occurrences. cbn. lia.
  - rewrite occurrences_app. specialize (H x (or_introl eq_refl)) as Hx.
    assert (Z.of_nat (length l) <= occurrences s (flat_map f l)).
    { apply IH. intros y Hy. apply H. now right. }
    lia.
Qed.

(** X8. When no page counts a signature twice in one window, no count
    exceeds the number of pages: each page then adds at most one to the
    header count and at most one to the footer count of a signature. *)
Theorem counts_at_most_pages_without_repeats ps s :
  (forall p, In p ps ->
     NoDup (page_head_keys sort p) /\ NoDup (page_tail_keys sort p)) ->
  Counter.get (tally sort ps).1 s <= Z.of_nat (length ps) /\
  Counter.get (tally sort ps).2 s <= Z.of_nat (length ps).
Proof.
  intros H. destruct (tally_get sort ps s) as [-> ->].
  split; apply occurrences_flat_map_le; intros p Hp;
    apply occurrences_nodup; now apply H.
Qed.

Lemma both_loops_defaults headers footers t p :
  reading_order_sort sort ->
  (forall s, Counter.get headers s <= t /\ Counter.get footers s <= t) ->
  classify_page sort headers footers t (sorted_in_place sort p) =
  with_defaults sort p.
Proof.
  intros Hsort Hlow. rewrite (both_loops_page sort Hsort). unfold with_defaults.
  destruct (RawPage.blocks p) as [|b bs] eqn:Hb; [reflexivity|].
  rewrite classified_spec. cbn [fst snd].
  rewrite !filter_exceeds_low; [reflexivity | apply Hlow | apply Hlow].
Qed.

(** X9. A document of at most four pages in which no page counts a
    signature twice in one window gets nothing but default boundaries: the
    threshold of such a document is at least its number of pages. The sort
    is asked to leave sorted blocks as they are and not to leave a page with
    blocks without any. *)
Theorem short_document_defaults ps :
  reading_order_sort sort ->
  (length ps <= 4)%nat ->
  (forall p, In p ps ->
     NoDup (page_head_keys sort p) /\ NoDup (page_tail_keys sort p)) ->
  _parse_header_footer sort ps = map (with_defaults sort) ps.
Proof.
  intros Hsort Hlen Hnd. rewrite parse_header_footer_map, map_map.
  apply map_ext. intros p.
  apply both_loops_defaults; [exact Hsort|]. intros s.
  destruct (tally_get sort ps s) as [Hh Hf]. rewrite Hh, Hf.
  assert (Hone : forall keys : RawPage.t Margin -> list string,
            (forall p, In p ps -> NoDup (keys p)) ->
            occurrences s (flat_map keys ps) <= Z.of_nat (length ps)).
  { intros keys Hk. apply occurrences_flat_map_le. intros q Hq.
    now apply occurrences_nodup, Hk. }
  pose proof (Hone _ (fun q Hq => proj1 (Hnd q Hq))).
  pose proof (Hone _ (fun q Hq => proj2 (Hnd q Hq))).
  assert (Ht : Z.of_nat (length ps) <= threshold (Z.of_nat (length ps))).
  { destruct (length ps) as [|[|[|[|[|n]]]]]; try lia; vm_compute; discriminate. }
  lia.
Qed.

(** *** A line repeated on every page *)

Lemma repeated_line_counts (keys : RawPage.t Margin -> list string) ps s :
  (forall p, In p ps -> In s (keys p)) ->
  Z.of_nat (length ps) <= occurrences s (flat_map keys ps).
Proof.
  intros H. apply occurrences_flat_map_ge. intros p Hp.
  now apply occurrences_pos, H.
Qed.

Lemma digit_variant_signature template x :
  digit_variant template x -> PyStr.signature x = PyStr.signature template.
Proof.
  intros H. unfold PyStr.signature, PyStr.sub_digits. symmetry.
  apply digit_variant_sub_digits, digit_variant_strip, H.
Qed.

Lemma last_in_tail_window (bs : list Block.t) b :
  last bs = Some b -> In b (tail_window bs).
Proof.
  intros Hl. unfold tail_window. rewrite <- head_reverse in Hl.
  destruct (reverse bs) as [|b' r]; [discriminate Hl|].
  injection Hl as ->. now left.
Qed.

Lemma head_in_head_window (bs : list Block.t) b :
  head bs = Some b -> In b (head_window bs).
Proof.
  intros Hl. unfold head_window.
  destruct bs as [|b' r]; [discriminate Hl|]. injection Hl as ->. now left.
Qed.

(** X10. A footer line repeated on every page is found, whatever its
    numbers: in a document of five pages or more in which the last block in
    reading order of every page has a text that differs from a common
    template only in its digit runs, that block is classified footer on
    every page and the footer boundary of the page is at most its top-y.
    The sort is asked to leave sorted blocks as they are and not to leave a
    page with blocks without any. *)
Theorem repeated_footer_is_detected ps template :
  reading_order_sort sort ->
  5 <= Z.of_nat (length ps) < 2 ^ 50 ->
  (forall p, In p ps ->
     RawPage.blocks p <> [] /\
     exists b x, last (sort (RawPage.blocks p)) = Some b /\
       Block.text b = Some x /\ digit_variant template x) ->
  forall k p, ps !! k = Some p ->
    exists b f,
      last (sort (RawPage.blocks p)) = Some b /\
      In b (classified sort (tally sort ps).1 (tally sort ps).2
              (threshold (Z.of_nat (length ps))) p).2 /\
      RawPage.footer <$> _parse_header_footer sort ps !! k = Some (Some f) /\
      f <= top_y b.
Proof.
  intros Hsort Hn Hall k p Hk.
  assert (Hp : In p ps) by (apply list_elem_of_In, list_elem_of_lookup; eauto).
  set (s := PyStr.signature template).
  assert (Hcount : threshold (Z.of_nat (length ps)) < Counter.get (tally sort ps).2 s).
  { rewrite (proj2 (tally_get sort ps s)).
    pose proof (repeated_line_counts (page_tail_keys sort) ps s) as Hge.
    pose proof (threshold_lt_pages (Z.of_nat (length ps)) ltac:(lia)) as Hbelow.
    enough (Z.of_nat (length ps) <=
            occurrences s (flat_map (page_tail_keys sort) ps)) by lia.
    apply Hge. intros q Hq. destruct (Hall q Hq) as (Hne & b & x & Hl & Hx & Hv).
    unfold page_tail_keys. destruct (RawPage.blocks q) eqn:Hb; [congruence|].
    subst s. rewrite <- (digit_variant_signature _ _ Hv).
    apply window_keys_In with b; [|assumption]. now apply last_in_tail_window. }
  destruct (Hall p Hp) as (Hne & b & x & Hl & Hx & Hv).
  assert (Hb : In b (classified sort (tally sort ps).1 (tally sort ps).2
                       (threshold (Z.of_nat (length ps))) p).2).
  { rewrite classified_spec. cbn [snd]. apply filter_In.
    split; [now apply last_in_tail_window|]. apply exceeds_true.
    exists x. split; [assumption|]. now rewrite (digit_variant_signature _ _ Hv). }
  eexists b, _. split; [exact Hl|]. split; [exact Hb|].
  rewrite (detector_lookup sort Hsort ps k p Hk).
  cbn [fmap option_fmap option_map]. cbv zeta.
  destruct (RawPage.blocks p) as [|b0 bs0] eqn:Hb0; [congruence|].
  cbn [RawPage.set_header_footer RawPage.footer]. split; [reflexivity|].
  now apply py_min_le.
Qed.

(** X11. The same for a header line: when the first block in reading order
    of every page of such a document has a text that differs from a common
    template only in its digit runs, that block is classified header on
    every page and the header boundary of the page is at least its
    bottom-y. The sort is asked to leave sorted blocks as they are and not
    to leave a page with blocks without any. *)
Theorem repeated_header_is_detected ps template :
  reading_order_sort sort ->
  5 <= Z.of_nat (length ps) < 2 ^ 50 ->
  (forall p, In p ps ->
     RawPage.blocks p <> [] /\
     exists b x, head (sort (RawPage.blocks p)) = Some b /\
       Block.text b = Some x /\ digit_variant template x) ->
  forall k p, ps !! k = Some p ->
    exists b h,
      head (sort (RawPage.blocks p)) = Some b /\
      In b (classified sort (tally sort ps).1 (tally sort ps).2
              (threshold (Z.of_nat (length ps))) p).1 /\
      RawPage.header <$> _parse_header_footer sort ps !! k = Some (Some h) /\
      bottom_y b <= h.
Proof.
  intros Hsort Hn Hall k p Hk.
  assert (Hp : In p ps) by (apply list_elem_of_In, list_elem_of_lookup; eauto).
  set (s := PyStr.signature template).
  assert (Hcount : threshold (Z.of_nat (length ps)) < Counter.get (tally sort ps).1 s).
  { rewrite (proj1 (tally_get sort ps s)).
    pose proof (repeated_line_counts (page_head_keys sort) ps s) as Hge.
    pose proof (threshold_lt_pages (Z.of_nat (length ps)) ltac:(lia)) as Hbelow.
    enough (Z.of_nat (length ps) <=
            occurrences s (flat_map (page_head_keys sort) ps)) by lia.
    apply Hge. intros q Hq. destruct (Hall q Hq) as (Hne & b & x & Hl & Hx & Hv).
    unfold page_head_keys. destruct (RawPage.blocks q) eqn:Hb; [congruence|].
    subst s. rewrite <- (digit_variant_signature _ _ Hv).
    apply window_keys_In with b; [|assumption]. now apply head_in_head_window. }
  destruct (Hall p Hp) as (Hne & b & x & Hl & Hx & Hv).
  assert (Hb : In b (classified sort (tally sort ps).1 (tally sort ps).2
                       (threshold (Z.of_nat (length ps))) p).1).
  { rewrite classified_spec. cbn [fst]. apply filter_In.
    split; [now apply head_in_head_window|]. apply exceeds_true.
    exists x. split; [assumption|]. now rewrite (digit_variant_signature _ _ Hv). }
  eexists b, _. split; [exact Hl|]. split; [exact Hb|].
  rewrite (detector_lookup sort Hsort ps k p Hk).
  cbn [fmap option_fmap option_map]. cbv zeta.
  destruct (RawPage.blocks p) as [|b0 bs0] eqn:Hb0; [congruence|].
  cbn [RawPage.set_header_footer RawPage.header]. split; [reflexivity|].
  now apply py_max_ge.
Qed.

End DetectorExtras.

(** ** The coordinator as a function of the collection *)

Section CoordinatorExtras.

Context {Document Settings Fonts Margin Section_ Image : Type}.
Variable C : Collaborators Document Settings Fonts Margin Section_ Image.
Variables (fitz_doc : Document) (settings : Settings).

Implicit Types (p q : Page.t Margin Section_ Image)
  (l m : list (Page.t Margin Section_ Image)).

Lemma all_skipped_analysed l :
  (forall p, In p l -> Page.skip_parsing p = true) -> analysed l = [].
Proof.
  induction l as [|p l IH]; intros H; [reflexivity|].
  rewrite analysed_cons, (H p (or_introl eq_refl)). apply IH.
  intros q Hq. apply H. now right.
Qed.

Lemma all_skipped_laid_out l raws :
  (forall p, In p l -> Page.skip_parsing p = true) ->
  laid_out C settings (map (after_extraction C fitz_doc settings) l) raws = l.
Proof.
  induction l as [|p l IH]; intros H; [reflexivity|].
  cbn [map laid_out]. rewrite skip_after_extraction.
  unfold after_extraction at 1. rewrite (H p (or_introl eq_refl)).
  rewrite IH; [reflexivity|]. intros q Hq. apply H. now right.
Qed.

(** X12. When every page of the collection is skipped, an empty collection
    included, [parse] returns the pages as they are and still logs the
    warning about a scanned document. *)
Theorem all_skipped_untouched l :
  (forall p, In p l -> Page.skip_parsing p = true) ->
  parse C l fitz_doc settings = (l, [no_words_warning]).
Proof.
  intros H. rewrite parse_spec.
  now rewrite all_skipped_laid_out, all_skipped_analysed.
Qed.

(** *** Skipping a page and removing it *)

Lemma analysed_all l :
  (forall p, In p l -> Page.skip_parsing p = false) -> analysed l = l.
Proof.
  induction l as [|p l IH]; intros H; [reflexivity|].
  rewrite analysed_cons, (H p (or_introl eq_refl)). f_equal. apply IH.
  intros q Hq. apply H. now right.
Qed.

Lemma analysed_not_skipped l p : In p (analysed l) -> Page.skip_parsing p = false.
Proof.
  unfold analysed, analysed_page. intros H. apply filter_In in H as [_ H].
  now apply negb_true_iff in H.
Qed.

Lemma analysed_idem l : analysed (analysed l) = analysed l.
Proof. apply analysed_all. intros p. apply analysed_not_skipped. Qed.

Lemma rank_analysed l i :
  (i <= length l)%nat -> rank (analysed l) (rank l i) = rank l i.
Proof.
  intros Hi. unfold rank at 1 3.
  rewrite <- (take_drop i l) at 2. rewrite analysed_app.
  fold (rank l i). unfold rank. rewrite take_app_length.
  now rewrite analysed_idem.
Qed.

(** X13. A skipped page has no say in what [parse] does to the others:
    every page that is not skipped ends up exactly as in a run over the
    collection without the skipped pages, and the log is the same. *)
Theorem skipping_is_removing l i p :
  l !! i = Some p -> Page.skip_parsing p = false ->
  (parse C (analysed l) fitz_doc settings).1 !! rank l i =
    (parse C l fitz_doc settings).1 !! i /\
  (parse C (analysed l) fitz_doc settings).2 = (parse C l fitz_doc settings).2.
Proof.
  intros Hi Hs. split.
  - rewrite (parse_lookup C fitz_doc settings l i p Hi).
    rewrite (parse_lookup C fitz_doc settings (analysed l) (rank l i) p
               (analysed_lookup_rank l i p Hi Hs)).
    unfold detected. rewrite analysed_idem.
    rewrite rank_analysed; [reflexivity|].
    apply lookup_lt_Some in Hi. lia.
  - rewrite !parse_spec. cbn [snd]. now rewrite analysed_idem.
Qed.

(** *** A second run *)

Lemma key_after_extraction p :
  page_key (after_extraction C fitz_doc settings p) = page_key p.
Proof. unfold after_extraction. now destruct (Page.skip_parsing p). Qed.

Lemma key_with_layout p rp : page_key (with_layout C settings p rp) = page_key p.
Proof. reflexivity. Qed.

Lemma laid_out_keys l : forall raws,
  map page_key (laid_out C settings l raws) = map page_key l.
Proof.
  induction l as [|p l IH]; intros raws; [reflexivity|]. cbn [laid_out].
  destruct (Page.skip_parsing p); [cbn [map]; now rewrite IH|].
  destruct raws as [|rp raws]; [reflexivity|].
  cbn [map]. now rewrite IH, key_with_layout.
Qed.

Lemma parse_keys l :
  map page_key (parse C l fitz_doc settings).1 = map page_key l.
Proof.
  rewrite parse_spec. cbn [fst]. rewrite laid_out_keys, map_map.
  apply map_ext. intros p. apply key_after_extraction.
Qed.

Lemma prepared_key p q :
  page_key p = page_key q ->
  prepared C fitz_doc settings p = prepared C fitz_doc settings q.
Proof.
  unfold page_key, prepared, extracted. intros [= Hid _]. now rewrite Hid.
Qed.

Lemma analysed_keys l : forall m,
  map page_key l = map page_key m ->
  map page_key (analysed l) = map page_key (analysed m).
Proof.
  induction l as [|p l IH]; intros [|q m] H; try discriminate H; [reflexivity|].
  cbn [map] in H.
  assert (Hk : page_key p = page_key q) by congruence.
  assert (Ht : map page_key l = map page_key m) by congruence.
  rewrite !analysed_cons.
  assert (Hs : Page.skip_parsing p = Page.skip_parsing q)
    by (unfold page_key in Hk; congruence).
  rewrite Hs. destruct (Page.skip_parsing q); [now apply IH|].
  cbn [map]. rewrite Hk. f_equal. now apply IH.
Qed.

Lemma map_by_key {B} (g : Page.t Margin Section_ Image -> B) l :
  (forall p q, page_key p = page_key q -> g p = g q) ->
  forall m, map page_key l = map page_key m -> map g l = map g m.
Proof.
  intros Hg. induction l as [|p l IH]; intros [|q m] H; try discriminate H;
    [reflexivity|].
  cbn [map] in *.
  assert (Hk : page_key p = page_key q) by congruence.
  assert (Ht : map page_key l = map page_key m) by congruence.
  f_equal; [now apply Hg | now apply IH].
Qed.

Lemma detected_keys l m :
  map page_key l = map page_key m ->
  detected C fitz_doc settings l = detected C fitz_doc settings m.
Proof.
  intros H. unfold detected. f_equal.
  apply map_by_key; [apply prepared_key | now apply analysed_keys].
Qed.

Lemma rank_keys l m i :
  map page_key l = map page_key m -> rank l i = rank m i.
Proof.
  intros H. unfold rank.
  assert (Ht : map page_key (take i l) = map page_key (take i m)).
  { change (page_key <$> take i l = page_key <$> take i m).
    rewrite !fmap_take. now f_equal. }
  apply analysed_keys in Ht. apply (f_equal length) in Ht.
  now rewrite !length_map in Ht.
Qed.

(** X14. A second run of [parse] over the same collection and document
    appends the sections of every page that is not skipped once more and
    leaves the rest of the page as the first run set it: width, height,
    margin and floating images are overwritten with the same values, the
    sections are extended. *)
Theorem second_run_appends_sections l i p :
  l !! i = Some p -> Page.skip_parsing p = false ->
  exists p1 new,
    (parse C l fitz_doc settings).1 !! i = Some p1 /\
    Page.sections p1 = Page.sections p ++ new /\
    (parse C (parse C l fitz_doc settings).1 fitz_doc settings).1 !! i =
      Some (Page.mk (Page.id p1) (Page.skip_parsing p1)
              (Page.width p1) (Page.height p1) (Page.margin p1)
              (Page.sections p1 ++ new) (Page.float_images p1)).
Proof.
  intros Hi Hs.
  destruct (detected_lookup C fitz_doc settings l i p Hi Hs) as (rp & Hrp).
  pose proof (parse_lookup C fitz_doc settings l i p Hi) as H1.
  rewrite Hs, Hrp in H1.
  set (p1 := with_layout C settings (after_extraction C fitz_doc settings p) rp) in *.
  assert (Hk1 : page_key p1 = page_key p)
    by (subst p1; now rewrite key_with_layout, key_after_extraction).
  assert (Hs1 : Page.skip_parsing p1 = false)
    by (unfold page_key in Hk1; congruence).
  exists p1, (List.filter (section_truth C)
                (parse_section C settings
                   (RawPage.set_margin rp (calculate_margin C settings rp)))).
  split; [exact H1|]. split.
  { subst p1. unfold with_layout, after_extraction. rewrite Hs. reflexivity. }
  rewrite (parse_lookup C fitz_doc settings _ i p1 H1), Hs1.
  rewrite (detected_keys _ l (parse_keys l)), (rank_keys _ l i (parse_keys l)), Hrp.
  unfold with_layout at 1, after_extraction at 1. rewrite Hs1.
  rewrite (prepared_key p1 p Hk1).
  subst p1. unfold with_layout, after_extraction. rewrite Hs.
  unfold Page.set_layout, Page.set_basic, extend. cbn. now rewrite ?Hs.
Qed.

End CoordinatorExtras.

(** ** The further properties at work on the sample documents *)

Lemma dv_digit c d s t :
  PyStr.is_digit c = true -> PyStr.is_digit d = true ->
  digit_variant s t -> digit_variant (String c s) (String d t).
Proof.
  intros Hc Hd H.
  apply (dv_run (String c EmptyString) (String d EmptyString) s t);
    try easy; cbn; now rewrite ?Hc, ?Hd.
Qed.

Ltac digit_variant_by_scan :=
  repeat first
    [ apply dv_nil
    | apply dv_char; [reflexivity|]
    | apply dv_digit; [reflexivity | reflexivity |] ].

Lemma page_order_irrelevant_witness :
  let sort := Collection.sort_in_reading_order in
  let ps := Sample.report ++ [Sample.pictures] in
  let qs := Sample.pictures :: Sample.report in
  Permutation ps qs /\
  tally sort ps = tally sort qs /\
  Permutation (_parse_header_footer sort ps) (_parse_header_footer sort qs).
Proof.
  intros sort ps qs.
  assert (H : Permutation ps qs).
  { subst ps qs. symmetry. apply Permutation_cons_append. }
  split; [exact H|].
  destruct (page_order_irrelevant sort ps qs H) as (Ht & _ & Hp).
  split; assumption.
Defined.

Lemma detector_idempotent_witness :
  let sort := Collection.sort_in_reading_order in
  reading_order_sort sort /\
  Forall2 (kept_by_detector sort) Sample.report
    (_parse_header_footer sort Sample.report) /\
  _parse_header_footer sort (_parse_header_footer sort Sample.report) =
  _parse_header_footer sort Sample.report.
Proof.
  intros sort. split; [exact sample_sort_is_sort|].
  destruct (detector_idempotent sort Sample.report sample_sort_is_sort)
    as (Hkept & _ & Htwice).
  split; [exact Hkept | exact Htwice].
Defined.

Lemma five_lines_small :
  forall p, In p (replicate 5 Sample.one_line) ->
    (length (Collection.sort_in_reading_order (RawPage.blocks p)) <= 3)%nat.
Proof.
  intros p Hp. cbn in Hp.
  repeat (destruct Hp as [<-|Hp]; [vm_compute; lia|]). destruct Hp.
Defined.

Lemma small_pages_header_is_footer_witness :
  let sort := Collection.sort_in_reading_order in
  let ps := replicate 5 Sample.one_line in
  (tally sort ps).1 = (tally sort ps).2.
Proof.
  exact (proj1 (small_pages_header_is_footer Collection.sort_in_reading_order
                  (replicate 5 Sample.one_line) five_lines_small)).
Defined.

Lemma small_pages_boundaries_cross_witness :
  exists h f,
    _parse_header_footer Collection.sort_in_reading_order
      (replicate 5 Sample.one_line) !! 0%nat =
      Some (RawPage.set_header_footer
              (sorted_in_place Collection.sort_in_reading_order Sample.one_line)
              h f) /\
    f <= h.
Proof.
  apply (small_pages_boundaries_cross Collection.sort_in_reading_order
           (replicate 5 Sample.one_line) 0 Sample.one_line
           sample_sort_is_sort five_lines_small).
  - reflexivity.
  - discriminate.
  - intros b Hb. vm_compute in Hb. destruct Hb as [<-|[]]. vm_compute. discriminate.
  - vm_compute. discriminate.
Defined.

Lemma report_windows_without_repeats :
  forall p, In p Sample.report ->
    NoDup (page_head_keys Collection.sort_in_reading_order p) /\
    NoDup (page_tail_keys Collection.sort_in_reading_order p).
Proof.
  intros p Hp. cbn in Hp.
  repeat (destruct Hp as [<-|Hp];
          [vm_compute; split;
           (apply NoDup_cons_2; [apply not_elem_of_nil | apply NoDup_nil_2])|]).
  destruct Hp.
Defined.

Lemma counts_at_most_pages_without_repeats_witness :
  Counter.get (tally Collection.sort_in_reading_order Sample.report).2
    "Page 1 of 1" <= 5.
Proof.
  exact (proj2 (counts_at_most_pages_without_repeats
                  Collection.sort_in_reading_order Sample.report "Page 1 of 1"
                  report_windows_without_repeats)).
Defined.

Lemma short_document_defaults_witness :
  _parse_header_footer Collection.sort_in_reading_order
    (firstn 4 Sample.report) =
  map (with_defaults Collection.sort_in_reading_order) (firstn 4 Sample.report).
Proof.
  apply short_document_defaults.
  - exact sample_sort_is_sort.
  - vm_compute. lia.
  - intros p Hp. apply report_windows_without_repeats.
    cbn in Hp. cbn. tauto.
Defined.

Lemma repeated_footer_is_detected_witness :
  exists b f,
    last (Collection.sort_in_reading_order
            (RawPage.blocks (Sample.report_page "3"))) = Some b /\
    RawPage.footer <$>
      _parse_header_footer Collection.sort_in_reading_order Sample.report !! 2%nat
      = Some (Some f) /\
    f <= top_y b.
Proof.
  destruct (repeated_footer_is_detected Collection.sort_in_reading_order
              Sample.report "Page 0 of 0") with (k := 2%nat)
              (p := Sample.report_page "3")
    as (b & f & Hl & _ & Hf & Hle).
  - exact sample_sort_is_sort.
  - vm_compute. split; [discriminate | reflexivity].
  - intros p Hp. cbn in Hp.
    repeat (destruct Hp as [<-|Hp];
      [split; [discriminate|];
       eexists _, _; split; [vm_compute; reflexivity|];
       split; [reflexivity|]; digit_variant_by_scan|]).
    destruct Hp.
  - reflexivity.
  - exists b, f. split; [exact Hl|]. split; [exact Hf | exact Hle].
Defined.

Lemma repeated_header_is_detected_witness :
  exists b h,
    head (Collection.sort_in_reading_order
            (RawPage.blocks (Sample.report_page "3"))) = Some b /\
    RawPage.header <$>
      _parse_header_footer Collection.sort_in_reading_order Sample.report !! 2%nat
      = Some (Some h) /\
    bottom_y b <= h.
Proof.
  destruct (repeated_header_is_detected Collection.sort_in_reading_order
              Sample.report " Annual report 1999 ") with (k := 2%nat)
              (p := Sample.report_page "3")
    as (b & h & Hl & _ & Hh & Hle).
  - exact sample_sort_is_sort.
  - vm_compute. split; [discriminate | reflexivity].
  - intros p Hp. cbn in Hp.
    repeat (destruct Hp as [<-|Hp];
      [split; [discriminate|];
       eexists _, _; split; [vm_compute; reflexivity|];
       split; [reflexivity|]; digit_variant_by_scan|]).
    destruct Hp.
  - reflexivity.
  - exists b, h. split; [exact Hl|]. split; [exact Hh | exact Hle].
Defined.

Lemma all_skipped_untouched_witness :
  parse Toy.collaborators [Toy.new_page 0 true; Toy.new_page 1 true]
    Sample.report tt =
  ([Toy.new_page 0 true; Toy.new_page 1 true], [no_words_warning]).
Proof.
  apply all_skipped_untouched. intros p [<-|[<-|[]]]; reflexivity.
Defined.

Lemma skipping_is_removing_witness :
  (parse Toy.collaborators (analysed Toy.report_pages) Sample.report tt).1 !! 3%nat =
  (parse Toy.collaborators Toy.report_pages Sample.report tt).1 !! 4%nat.
Proof.
  exact (proj1 (skipping_is_removing Toy.collaborators Sample.report tt
                  Toy.report_pages 4 (Toy.new_page 3 false) eq_refl eq_refl)).
Defined.

Lemma second_run_appends_sections_witness :
  exists p1 new,
    (parse Toy.collaborators Toy.report_pages Sample.report tt).1 !! 4%nat = Some p1 /\
    Page.sections p1 = [] ++ new /\
    Page.sections <$>
      (parse Toy.collaborators
         (parse Toy.collaborators Toy.report_pages Sample.report tt).1
         Sample.report tt).1 !! 4%nat = Some (Page.sections p1 ++ new).
Proof.
  destruct (second_run_appends_sections Toy.collaborators Sample.report tt
              Toy.report_pages 4 (Toy.new_page 3 false) eq_refl eq_refl)
    as (p1 & new & H1 & Hsec & H2).
  exists p1, new. split; [exact H1|]. split; [exact Hsec|].
  now rewrite H2.
Defined.
